(** * Tool check-out / check-in tracking: the data hooks and the auth helper

    A shallow embedding of the three modules of the application

    - [lib/supabase]       the client shim with [signIn] and [signOut],
    - [hooks/useTools]     the inventory hook,
    - [hooks/useMovements] the check-out / check-in hook,

    as programs of a state-and-exception monad over a [World] holding the
    remote backend, the log of the requests sent to it, the browser
    console, the clock, the realtime subscriptions and the React state of
    the two hooks.

    Conventions of the model.
    - The backend is a parameter: a [Client] answers every request from a
      backend state of an arbitrary type, so that the theorems hold for
      every backend and every answer it can give.  [MemDB] is a small
      in-memory backend used to run the hooks on concrete inputs.
    - JavaScript objects are finite maps from property names to values;
      counts of tools are integers.
    - A call to the backend never throws: it resolves to an object that
      carries its error, as the client library does.
    - An asynchronous call is run to completion at the place where it is
      started; promises started together run in the order they are started. *)

From Stdlib Require Import ZArith String List Lia DecimalString.
From stdpp Require Import base option list strings gmap.
Import ListNotations.

Local Open Scope string_scope.
Local Open Scope Z_scope.
Local Open Scope list_scope.

(** ** Values and rows *)

(** The JavaScript values that occur in table rows.  [VNaN] is the number
    that the arithmetic of the hooks produces from [undefined]. *)
Inductive val : Type :=
| VUndef
| VNull
| VNum (n : Z)
| VStr (s : string)
| VNaN.

Global Instance val_eq_dec : EqDecision val.
Proof. solve_decision. Defined.

(** A table row, and more generally an object literal. *)
Abbreviation row := (gmap string val).

(** Property read [r.k]: a missing property reads as [undefined]. *)
Definition get (r : row) (k : string) : val := default VUndef (r !! k).

(** An optional string parameter ([notes?: string]) as a property value. *)
Definition opt_str (o : option string) : val :=
  match o with Some s => VStr s | None => VUndef end.

(** Conversion of a fetched value to a number; [None] stands for NaN.
    The columns read this way ([available_stock]) are numeric: strings are
    not parsed and count as NaN. *)
Definition to_number (v : val) : option Z :=
  match v with
  | VNum n => Some n
  | VNull => Some 0
  | VUndef | VStr _ | VNaN => None
  end.

(** [a < q], [a - q] and [a + q] for a fetched value [a] and a count [q]. *)
Definition js_lt (a : val) (q : Z) : bool :=
  match to_number a with Some x => x <? q | None => false end.

Definition js_sub (a : val) (q : Z) : val :=
  match to_number a with Some x => VNum (x - q) | None => VNaN end.

Definition js_add (a : val) (q : Z) : val :=
  match to_number a with Some x => VNum (x + q) | None => VNaN end.

(** ** Errors *)

Inductive Err : Type :=
| JsError (msg : string)        (* new Error(msg) *)
| TypeError (prop : string)     (* property [prop] read on null *)
| RemoteError (msg : string).   (* an error object returned by the backend *)

(** ** Requests *)

Inductive Verb : Type :=
| Select (cols : string)
| Insert (rows : list row)
| Update (payload : row)
| Delete.

(** A query as assembled by the chained builder calls. *)
Record Query : Type := mkQuery {
  q_table : string;
  q_verb : Verb;
  q_eq : list (string * val);        (* .eq(column, value), in call order *)
  q_order : option (string * bool);  (* .order(column, { ascending }) *)
  q_returning : bool;                (* .select() after a write *)
  q_single : bool                    (* .single() *)
}.

(** The builder calls of the table API, named as in the source. *)
Module Builder.
Definition from (table : string) : string := table.

Definition select (cols : string) (table : string) : Query :=
  mkQuery table (Select cols) [] None false false.
Definition insert (rows : list row) (table : string) : Query :=
  mkQuery table (Insert rows) [] None false false.
Definition update (payload : row) (table : string) : Query :=
  mkQuery table (Update payload) [] None false false.
Definition delete (table : string) : Query :=
  mkQuery table Delete [] None false false.

Definition eq (col : string) (v : val) (q : Query) : Query :=
  mkQuery (q_table q) (q_verb q) (q_eq q ++ [(col, v)]) (q_order q)
          (q_returning q) (q_single q).
Definition order (col : string) (ascending : bool) (q : Query) : Query :=
  mkQuery (q_table q) (q_verb q) (q_eq q) (Some (col, ascending))
          (q_returning q) (q_single q).
(** [.select()] chained after a write: return the written rows. *)
Definition returning (q : Query) : Query :=
  mkQuery (q_table q) (q_verb q) (q_eq q) (q_order q) true (q_single q).
Definition single (q : Query) : Query :=
  mkQuery (q_table q) (q_verb q) (q_eq q) (q_order q) (q_returning q) true.
End Builder.

(** Everything the application sends to the backend. *)
Inductive Request : Type :=
| RQuery (q : Query)
| RSignIn (email password : string)
| RSignOut
| RSubscribe (channel event schema table : string)
| RUnsubscribe (channel : string).

(** The [{ data, error }] object every call resolves to. *)
Record Resp (T : Type) : Type := mkResp {
  data : option T;
  error : option Err
}.
Arguments mkResp {T} _ _.
Arguments data {T} _.
Arguments error {T} _.

(** The result of [signOut] carries an error only. *)
Record SignOutResult : Type := mkSignOut { so_error : option Err }.

(** [ToolUsage]: the projection of an active movement shown by the UI. *)
Record ToolUsage : Type := mkToolUsage {
  tool_id : val;
  tool_name : val;
  user_name : val;
  area : val;
  quantity : val;
  checkout_date : val;
  movement_id : val
}.

(** The callbacks registered on realtime channels. *)
Inductive Handler : Type :=
| ToolsOnTools          (* useTools, table tools *)
| ToolsOnMovements      (* useTools, table movements *)
| MovementsOnMovements. (* useMovements, table movements *)

Record Subscription : Type := mkSub {
  sub_channel : string;
  sub_event : string;
  sub_schema : string;
  sub_table : string;
  sub_handler : Handler
}.

Inductive LogEntry : Type :=
| LogWarn (msg : string)
| LogError (msg : string) (e : Err).

(** ** The client, the world and the monad of the hooks *)

(** The client library: how the backend, whose state has type [B], answers
    a request and how its state changes.  A query without [.single()]
    resolves to a list of rows, one with [.single()] to one row; [AuthData]
    is what a sign-in returns as data. *)
Record Client (B AuthData : Type) : Type := mkClient {
  exec_many : Query -> B -> Resp (list row) * B;
  exec_single : Query -> B -> Resp row * B;
  auth_signInWithPassword : string -> string -> B -> Resp AuthData * B;
  auth_signOut : B -> option Err * B
}.
Arguments mkClient {B AuthData} _ _ _ _.
Arguments exec_many {B AuthData} _ _ _.
Arguments exec_single {B AuthData} _ _ _.
Arguments auth_signInWithPassword {B AuthData} _ _ _ _.
Arguments auth_signOut {B AuthData} _ _.

Record World (B : Type) : Type := mkWorld {
  remote : B;                    (* the backend *)
  trace : list Request;          (* requests sent so far, oldest first *)
  console : list LogEntry;       (* console.warn / console.error *)
  ticks : nat;                   (* number of clock reads so far *)
  subs : list Subscription;      (* active realtime subscriptions *)
  tools : list row;              (* useTools: tools *)
  toolsInUse : list ToolUsage;   (* useTools: toolsInUse *)
  tools_loading : bool;          (* useTools: loading *)
  movements : list row;          (* useMovements: movements *)
  movements_loading : bool       (* useMovements: loading *)
}.
Arguments mkWorld {B} _ _ _ _ _ _ _ _ _ _.
Arguments remote {B} _.
Arguments trace {B} _.
Arguments console {B} _.
Arguments ticks {B} _.
Arguments subs {B} _.
Arguments tools {B} _.
Arguments toolsInUse {B} _.
Arguments tools_loading {B} _.
Arguments movements {B} _.
Arguments movements_loading {B} _.

(** How a computation ends: with a value or with a thrown error. *)
Inductive Outcome (A : Type) : Type :=
| Returned (a : A)
| Thrown (e : Err).
Arguments Returned {A} a.
Arguments Thrown {A} e.

Definition M (B A : Type) : Type := World B -> Outcome A * World B.

Definition ret {B A} (a : A) : M B A := fun w => (Returned a, w).

Definition throw {B A} (e : Err) : M B A := fun w => (Thrown e, w).

Definition bind {B A C} (m : M B A) (k : A -> M B C) : M B C :=
  fun w =>
    match m w with
    | (Returned a, w') => k a w'
    | (Thrown e, w') => (Thrown e, w')
    end.

Notation "x <- m ;; k" := (bind m (fun x => k))
  (at level 100, m at next level, right associativity).
Notation "m ;; k" := (bind m (fun _ => k))
  (at level 100, right associativity).

(** [try { body } catch (e) { handler e }]: what [body] did before it threw
    stays done. *)
Definition try_catch {B A} (body : M B A) (handler : Err -> M B A) : M B A :=
  fun w =>
    match body w with
    | (Returned a, w') => (Returned a, w')
    | (Thrown e, w') => handler e w'
    end.

(** [try { body } finally { fin }]: [fin] runs however [body] ended, and
    the outcome of [body] stands unless [fin] throws. *)
Definition try_finally {B A} (body : M B A) (fin : M B unit) : M B A :=
  fun w =>
    match body w with
    | (o, w') =>
        match fin w' with
        | (Returned _, w'') => (o, w'')
        | (Thrown e, w'') => (Thrown e, w'')
        end
    end.

(** *** Primitive effects *)

(** Dereferencing the client: reading property [prop] of [null] throws. *)
Definition deref {B AuthData} (supabase : option (Client B AuthData))
    (prop : string) : M B (Client B AuthData) :=
  match supabase with
  | Some c => ret c
  | None => throw (TypeError prop)
  end.

(** The world after request [r] was sent and left the backend in state [b]. *)
Definition sent {B} (r : Request) (b : B) (w : World B) : World B :=
  mkWorld b (trace w ++ [r]) (console w) (ticks w) (subs w)
          (tools w) (toolsInUse w) (tools_loading w)
          (movements w) (movements_loading w).

Definition with_remote {B} (b : B) (w : World B) : World B :=
  mkWorld b (trace w) (console w) (ticks w) (subs w)
          (tools w) (toolsInUse w) (tools_loading w)
          (movements w) (movements_loading w).

Definition ticked {B} (w : World B) : World B :=
  mkWorld (remote w) (trace w) (console w) (S (ticks w)) (subs w)
          (tools w) (toolsInUse w) (tools_loading w)
          (movements w) (movements_loading w).

Definition logged {B} (l : LogEntry) (w : World B) : World B :=
  mkWorld (remote w) (trace w) (console w ++ [l]) (ticks w) (subs w)
          (tools w) (toolsInUse w) (tools_loading w)
          (movements w) (movements_loading w).

Definition with_subs {B} (l : list Subscription) (r : Request) (w : World B)
    : World B :=
  mkWorld (remote w) (trace w ++ [r]) (console w) (ticks w) l
          (tools w) (toolsInUse w) (tools_loading w)
          (movements w) (movements_loading w).

Definition with_tools {B} (l : list row) (w : World B) : World B :=
  mkWorld (remote w) (trace w) (console w) (ticks w) (subs w)
          l (toolsInUse w) (tools_loading w)
          (movements w) (movements_loading w).

Definition with_toolsInUse {B} (l : list ToolUsage) (w : World B) : World B :=
  mkWorld (remote w) (trace w) (console w) (ticks w) (subs w)
          (tools w) l (tools_loading w)
          (movements w) (movements_loading w).

Definition with_tools_loading {B} (b : bool) (w : World B) : World B :=
  mkWorld (remote w) (trace w) (console w) (ticks w) (subs w)
          (tools w) (toolsInUse w) b
          (movements w) (movements_loading w).

Definition with_movements {B} (l : list row) (w : World B) : World B :=
  mkWorld (remote w) (trace w) (console w) (ticks w) (subs w)
          (tools w) (toolsInUse w) (tools_loading w)
          l (movements_loading w).

Definition with_movements_loading {B} (b : bool) (w : World B) : World B :=
  mkWorld (remote w) (trace w) (console w) (ticks w) (subs w)
          (tools w) (toolsInUse w) (tools_loading w)
          (movements w) b.

(** Awaiting a query: it is sent, the backend answers and moves on. *)
Definition await_many {B AuthData} (c : Client B AuthData) (q : Query)
    : M B (Resp (list row)) :=
  fun w => let (r, b) := exec_many c q (remote w) in
           (Returned r, sent (RQuery q) b w).

Definition await_single {B AuthData} (c : Client B AuthData) (q : Query)
    : M B (Resp row) :=
  fun w => let (r, b) := exec_single c (Builder.single q) (remote w) in
           (Returned r, sent (RQuery (Builder.single q)) b w).

Definition await_signIn {B AuthData} (c : Client B AuthData)
    (email password : string) : M B (Resp AuthData) :=
  fun w => let (r, b) := auth_signInWithPassword c email password (remote w) in
           (Returned r, sent (RSignIn email password) b w).

Definition await_signOut {B AuthData} (c : Client B AuthData)
    : M B (option Err) :=
  fun w => let (e, b) := auth_signOut c (remote w) in
           (Returned e, sent RSignOut b w).

(** [new Date().toISOString()]: the clock is read and advances. *)
Definition now {B} (clock : nat -> string) : M B string :=
  fun w => (Returned (clock (ticks w)), ticked w).

Definition console_log {B} (l : LogEntry) : M B unit :=
  fun w => (Returned tt, logged l w).

(** [channel(ch).on('postgres_changes', {event, schema, table}, h).subscribe()] *)
Definition subscribe {B} (s : Subscription) : M B Subscription :=
  fun w => (Returned s,
            with_subs (subs w ++ [s])
                      (RSubscribe (sub_channel s) (sub_event s)
                                  (sub_schema s) (sub_table s)) w).

Global Instance Handler_eq_dec : EqDecision Handler.
Proof. solve_decision. Defined.

Global Instance Subscription_eq_dec : EqDecision Subscription.
Proof. solve_decision. Defined.

(** [subscription.unsubscribe()] *)
Definition unsubscribe {B} (s : Subscription) : M B unit :=
  fun w => (Returned tt,
            with_subs (filter (fun s' => s' <> s) (subs w))
                      (RUnsubscribe (sub_channel s)) w).

(** Method chaining: [x |> f |> g] is [g (f x)]. *)
Notation "x |> f" := (f x) (at level 45, left associativity, only parsing).

(** [data || []] *)
Definition or_empty {T} (d : option (list T)) : list T := default [] d.

(** ** lib/supabase: the client and the auth helper *)

Module supabase_lib.
Section Lib.
Variables B AuthData : Type.

(** [createClient] belongs to the client library. *)
Variable createClient : string -> string -> Client B AuthData.

(** Only create the client if we have valid credentials: both environment
    variables are set and non-empty. *)
Definition supabase (supabaseUrl supabaseKey : option string)
    : option (Client B AuthData) :=
  match supabaseUrl, supabaseKey with
  | Some url, Some key =>
      if negb (String.eqb url "") && negb (String.eqb key "")
      then Some (createClient url key)
      else None
  | _, _ => None
  end.

(** The value of [supabase] the helper was loaded with. *)
Variable client : option (Client B AuthData).

Definition signIn (email password : string) : M B (Resp AuthData) :=
  match client with
  | None => ret (mkResp None (Some (JsError "Supabase not configured")))
  | Some c =>
      r <- await_signIn c email password ;;
      ret (mkResp (data r) (error r))
  end.

Definition signOut : M B SignOutResult :=
  match client with
  | None => ret (mkSignOut (Some (JsError "Supabase not configured")))
  | Some c =>
      e <- await_signOut c ;;
      ret (mkSignOut e)
  end.

End Lib.
End supabase_lib.

(** ** hooks/useTools *)

Module useTools.
Section Hook.
Variables B AuthData : Type.
Variable supabase : option (Client B AuthData).
Variable clock : nat -> string.

Definition setTools (l : list row) : M B unit :=
  fun w => (Returned tt, with_tools l w).

Definition setToolsInUse (l : list ToolUsage) : M B unit :=
  fun w => (Returned tt, with_toolsInUse l w).

Definition setLoading (b : bool) : M B unit :=
  fun w => (Returned tt, with_tools_loading b w).

Definition tools_query : Query :=
  Builder.from "tools" |> Builder.select "*" |> Builder.order "name" true.

Definition fetchTools : M B unit :=
  try_catch
    (c <- deref supabase "from" ;;
     r <- await_many c tools_query ;;
     match error r with
     | Some e => throw e
     | None => setTools (or_empty (data r))
     end)
    (fun e => console_log (LogError "Error fetching tools:" e)).

Definition active_movements_query : Query :=
  Builder.from "movements" |> Builder.select "*"
    |> Builder.eq "status" (VStr "active")
    |> Builder.order "checkout_date" false.

(** The callback of the [map] in [fetchToolsInUse]. *)
Definition usage_of (movement : row) : ToolUsage :=
  {| tool_id := get movement "tool_id";
     tool_name := get movement "tool_name";
     user_name := get movement "user_name";
     area := get movement "area";
     quantity := get movement "quantity";
     checkout_date := get movement "checkout_date";
     movement_id := get movement "id" |}.

Definition fetchToolsInUse : M B unit :=
  try_catch
    (c <- deref supabase "from" ;;
     r <- await_many c active_movements_query ;;
     match error r with
     | Some e => throw e
     | None =>
         let usage := map usage_of (or_empty (data r)) in
         setToolsInUse usage
     end)
    (fun e => console_log (LogError "Error fetching tools in use:" e)).

Definition addTool_query (tool : row) : Query :=
  Builder.from "tools"
    |> Builder.insert [ <["available_stock" := get tool "stock"]> tool ]
    |> Builder.returning.

Definition addTool (tool : row) : M B (Resp row) :=
  try_catch
    (c <- deref supabase "from" ;;
     r <- await_single c (addTool_query tool) ;;
     match error r with
     | Some e => throw e
     | None => fetchTools ;; ret (mkResp (data r) None)
     end)
    (fun e => ret (mkResp None (Some e))).

Definition updateTool_query (id : string) (updates : row) (t : string) : Query :=
  Builder.from "tools"
    |> Builder.update (<["updated_at" := VStr t]> updates)
    |> Builder.eq "id" (VStr id)
    |> Builder.returning.

Definition updateTool (id : string) (updates : row) : M B (Resp row) :=
  try_catch
    (c <- deref supabase "from" ;;
     t <- now clock ;;
     r <- await_single c (updateTool_query id updates t) ;;
     match error r with
     | Some e => throw e
     | None => fetchTools ;; ret (mkResp (data r) None)
     end)
    (fun e => ret (mkResp None (Some e))).

Definition deleteTool_query (id : string) : Query :=
  Builder.from "tools" |> Builder.delete |> Builder.eq "id" (VStr id).

(** [deleteTool] returns [{ error }] only. *)
Definition deleteTool (id : string) : M B (option Err) :=
  try_catch
    (c <- deref supabase "from" ;;
     r <- await_many c (deleteTool_query id) ;;
     match error r with
     | Some e => throw e
     | None => fetchTools ;; ret None
     end)
    (fun e => ret (Some e)).

Definition refetch : M B unit := fetchTools ;; fetchToolsInUse.

Definition loadData : M B unit :=
  setLoading true ;;
  (fetchTools ;; fetchToolsInUse) ;;
  setLoading false.

Definition toolsSubscription : Subscription :=
  mkSub "tools" "*" "public" "tools" ToolsOnTools.
Definition movementsSubscription : Subscription :=
  mkSub "movements" "*" "public" "movements" ToolsOnMovements.

(** The two realtime callbacks. *)
Definition on_tools_change : M B unit := fetchTools.
Definition on_movements_change : M B unit := fetchToolsInUse ;; fetchTools.

(** The effect run on mount; it returns the clean-up run on unmount. *)
Definition mount : M B (M B unit) :=
  loadData ;;
  _ <- deref supabase "channel" ;;
  s1 <- subscribe toolsSubscription ;;
  _ <- deref supabase "channel" ;;
  s2 <- subscribe movementsSubscription ;;
  ret (unsubscribe s1 ;; unsubscribe s2).

End Hook.
End useTools.

(** ** hooks/useMovements *)

Module useMovements.
Section Hook.
Variables B AuthData : Type.
Variable supabase : option (Client B AuthData).
Variable clock : nat -> string.

Definition setMovements (l : list row) : M B unit :=
  fun w => (Returned tt, with_movements l w).

Definition setLoading (b : bool) : M B unit :=
  fun w => (Returned tt, with_movements_loading b w).

Definition movements_query : Query :=
  Builder.from "movements" |> Builder.select "*"
    |> Builder.order "created_at" false.

Definition fetchMovements : M B unit :=
  try_finally
    (try_catch
       (match supabase with
        | None =>
            console_log
              (LogWarn "Supabase not configured - using empty movements list") ;;
            setMovements []
        | Some c =>
            r <- await_many c movements_query ;;
            match error r with
            | Some e => throw e
            | None => setMovements (or_empty (data r))
            end
        end)
       (fun e =>
          console_log (LogError "Error fetching movements:" e) ;;
          setMovements []))
    (setLoading false).

Definition stock_query (toolId : val) : Query :=
  Builder.from "tools" |> Builder.select "available_stock"
    |> Builder.eq "id" toolId.

(** The row inserted by a check-out, stamped with the time [t]. *)
Definition checkout_row (toolId toolName : string) (quantity : Z)
    (userName area : string) (notes : option string) (t : string) : row :=
  list_to_map
    [ ("tool_id", VStr toolId);
      ("tool_name", VStr toolName);
      ("type", VStr "checkout");
      ("quantity", VNum quantity);
      ("user_name", VStr userName);
      ("area", VStr area);
      ("notes", opt_str notes);
      ("checkout_date", VStr t);
      ("status", VStr "active") ].

Definition insert_movement_query (r : row) : Query :=
  Builder.from "movements" |> Builder.insert [r] |> Builder.returning.

Definition stock_update_query (toolId : val) (available_stock : val) : Query :=
  Builder.from "tools"
    |> Builder.update {[ "available_stock" := available_stock ]}
    |> Builder.eq "id" toolId.

Definition createCheckout (toolId toolName : string) (quantity : Z)
    (userName area : string) (notes : option string) : M B (Resp row) :=
  try_catch
    (match supabase with
     | None => ret (mkResp None (Some (JsError "Supabase not configured")))
     | Some c =>
         (* First, update tool stock *)
         rt <- await_single c (stock_query (VStr toolId)) ;;
         match data rt with
         | None => throw (JsError "Stock insuficiente")
         | Some tool =>
             if js_lt (get tool "available_stock") quantity
             then throw (JsError "Stock insuficiente")
             else
               t <- now clock ;;
               r <- await_single c
                      (insert_movement_query
                         (checkout_row toolId toolName quantity userName area
                                       notes t)) ;;
               match error r with
               | Some e => throw e
               | None =>
                   (* Update tool available stock *)
                   _ <- await_many c
                          (stock_update_query (VStr toolId)
                             (js_sub (get tool "available_stock") quantity)) ;;
                   fetchMovements ;;
                   ret (mkResp (data r) None)
               end
         end
     end)
    (fun e => ret (mkResp None (Some e))).

Definition movement_query (movementId : string) : Query :=
  Builder.from "movements" |> Builder.select "*"
    |> Builder.eq "id" (VStr movementId).

Definition mark_returned_query (movementId : string) (t : string) : Query :=
  Builder.from "movements"
    |> Builder.update (list_to_map [ ("status", VStr "returned");
                                     ("checkin_date", VStr t) ])
    |> Builder.eq "id" (VStr movementId).

(** The row inserted by a check-in of [movement], stamped with [t]. *)
Definition checkin_row (movement : row) (returnQuantity : Z)
    (userName : string) (notes : option string) (t : string) : row :=
  list_to_map
    [ ("tool_id", get movement "tool_id");
      ("tool_name", get movement "tool_name");
      ("type", VStr "checkin");
      ("quantity", VNum returnQuantity);
      ("user_name", VStr userName);
      ("area", get movement "area");
      ("notes", opt_str notes);
      ("checkout_date", get movement "checkout_date");
      ("checkin_date", VStr t);
      ("status", VStr "returned") ].

Definition createCheckin (movementId : string) (returnQuantity : Z)
    (userName : string) (notes : option string) : M B (Resp row) :=
  try_catch
    (match supabase with
     | None => ret (mkResp None (Some (JsError "Supabase not configured")))
     | Some c =>
         (* Get the original movement *)
         rm <- await_single c (movement_query movementId) ;;
         match data rm with
         | None => throw (JsError "Movimiento no encontrado")
         | Some movement =>
             (* Update the original movement *)
             t1 <- now clock ;;
             _ <- await_many c (mark_returned_query movementId t1) ;;
             (* Create a new checkin movement *)
             t2 <- now clock ;;
             r <- await_single c
                    (insert_movement_query
                       (checkin_row movement returnQuantity userName notes t2)) ;;
             match error r with
             | Some e => throw e
             | None =>
                 (* Update tool available stock *)
                 rt <- await_single c (stock_query (get movement "tool_id")) ;;
                 match data rt with
                 | Some tool =>
                     _ <- await_many c
                            (stock_update_query (get movement "tool_id")
                               (js_add (get tool "available_stock")
                                       returnQuantity)) ;;
                     ret tt
                 | None => ret tt
                 end ;;
                 fetchMovements ;;
                 ret (mkResp (data r) None)
             end
         end
     end)
    (fun e => ret (mkResp None (Some e))).

Definition refetch : M B unit := fetchMovements.

Definition subscription : Subscription :=
  mkSub "movements" "*" "public" "movements" MovementsOnMovements.

(** The realtime callback. *)
Definition on_movements_change : M B unit := fetchMovements.

(** The effect run on mount; it returns the clean-up, if there is one. *)
Definition mount : M B (option (M B unit)) :=
  fetchMovements ;;
  match supabase with
  | None => ret None
  | Some _ =>
      s <- subscribe subscription ;;
      ret (Some (unsubscribe s))
  end.

End Hook.
End useMovements.

(** ** Realtime: delivery of change events to the mounted hooks *)

Section Realtime.
Variables B AuthData : Type.
Variable supabase : option (Client B AuthData).
Variable clock : nat -> string.

(** The code behind each registered callback. *)
Definition handler_body (h : Handler) : M B unit :=
  match h with
  | ToolsOnTools => useTools.on_tools_change B AuthData supabase
  | ToolsOnMovements => useTools.on_movements_change B AuthData supabase
  | MovementsOnMovements => useMovements.on_movements_change B AuthData supabase
  end.

Fixpoint run_handlers (l : list Subscription) : M B unit :=
  match l with
  | [] => ret tt
  | s :: l' => handler_body (sub_handler s) ;; run_handlers l'
  end.

(** The subscriptions a change of [table] is delivered to: the callbacks
    are registered for every event ([*]) of schema [public]. *)
Definition listeners (table : string) (l : list Subscription)
    : list Subscription :=
  filter (fun s => sub_table s = table) l.

(** The backend announces a change of [table]. *)
Definition notify (table : string) : M B unit :=
  fun w => run_handlers (listeners table (subs w)) w.

(** Another client changes [table], leaving the backend in state [b]. *)
Definition external_change (table : string) (b : B) : M B unit :=
  fun w => notify table (with_remote b w).

End Realtime.

(** The requests an operation sends when run in world [w]. *)
Definition issued {B A} (op : M B A) (w : World B) : list Request :=
  drop (length (trace w)) (trace (snd (op w))).

(** The value an operation returns when run in world [w]. *)
Definition outcome {B A} (op : M B A) (w : World B) : Outcome A := fst (op w).

(** The world an operation leaves behind. *)
Definition after {B A} (op : M B A) (w : World B) : World B := snd (op w).

(** ** A reference backend: tables in memory *)

Module MemDB.

Record DB : Type := mkDB {
  tables : gmap string (list row);
  denied : list (string * string);   (* (verb, table) pairs it rejects *)
  users : list (string * string);    (* email, password *)
  next_id : nat
}.

Definition verb_name (v : Verb) : string :=
  match v with
  | Select _ => "select"
  | Insert _ => "insert"
  | Update _ => "update"
  | Delete => "delete"
  end.

Definition table_rows (db : DB) (t : string) : list row :=
  default [] (tables db !! t).

Definition set_rows (db : DB) (t : string) (l : list row) (n : nat) : DB :=
  mkDB (<[t := l]> (tables db)) (denied db) (users db) n.

Definition matches (filters : list (string * val)) (r : row) : bool :=
  forallb (fun f => bool_decide (get r (fst f) = snd f)) filters.

Definition val_leb (a b : val) : bool :=
  match a, b with
  | VNum x, VNum y => x <=? y
  | VStr x, VStr y => String.leb x y
  | _, _ => true
  end.

Fixpoint insert_sorted (le : row -> row -> bool) (r : row) (l : list row)
    : list row :=
  match l with
  | [] => [r]
  | r' :: l' => if le r r' then r :: l else r' :: insert_sorted le r l'
  end.

Definition sort_rows (le : row -> row -> bool) (l : list row) : list row :=
  fold_right (insert_sorted le) [] l.

Definition ordered (o : option (string * bool)) (l : list row) : list row :=
  match o with
  | None => l
  | Some (col, true) => sort_rows (fun a b => val_leb (get a col) (get b col)) l
  | Some (col, false) => sort_rows (fun a b => val_leb (get b col) (get a col)) l
  end.

(** The columns a select returns: all of them, or the one named. *)
Definition project (cols : string) (r : row) : row :=
  if String.eqb cols "*" then r else {[ cols := get r cols ]}.

Definition fresh_id (n : nat) : val :=
  VStr ("gen-" +:+ DecimalString.NilZero.string_of_uint (Nat.to_uint n)).

(** Inserted rows get an [id] unless they bring one. *)
Fixpoint with_ids (n : nat) (l : list row) : list row * nat :=
  match l with
  | [] => ([], n)
  | r :: l' =>
      match r !! "id" with
      | Some _ => let (rs, n') := with_ids n l' in (r :: rs, n')
      | None =>
          let (rs, n') := with_ids (S n) l' in
          (<["id" := fresh_id n]> r :: rs, n')
      end
  end.

Definition rejected {T} : Resp T :=
  mkResp None (Some (RemoteError "permission denied")).

Definition exec (q : Query) (db : DB) : Resp (list row) * DB :=
  if bool_decide ((verb_name (q_verb q), q_table q) ∈ denied db)
  then (rejected, db)
  else
    let rows := table_rows db (q_table q) in
    match q_verb q with
    | Select cols =>
        (mkResp (Some (map (project cols)
                           (ordered (q_order q)
                                    (List.filter (matches (q_eq q)) rows))))
                None, db)
    | Insert new =>
        let (new', n) := with_ids (next_id db) new in
        (mkResp (if q_returning q then Some new' else None) None,
         set_rows db (q_table q) (rows ++ new') n)
    | Update payload =>
        let upd r := if matches (q_eq q) r then payload ∪ r else r in
        (mkResp (if q_returning q
                 then Some (map (union payload)
                                (List.filter (matches (q_eq q)) rows))
                 else None) None,
         set_rows db (q_table q) (map upd rows) (next_id db))
    | Delete =>
        (mkResp None None,
         set_rows db (q_table q)
                  (List.filter (fun r => negb (matches (q_eq q) r)) rows)
                  (next_id db))
    end.

(** [.single()]: exactly one row, or an error. *)
Definition exec1 (q : Query) (db : DB) : Resp row * DB :=
  match exec q db with
  | (mkResp (Some [r]) None, db') => (mkResp (Some r) None, db')
  | (mkResp _ (Some e), db') => (mkResp None (Some e), db')
  | (mkResp _ None, db') =>
      (mkResp None (Some (RemoteError "PGRST116")), db')
  end.

Definition sign_in (email password : string) (db : DB)
    : Resp string * DB :=
  if bool_decide ((email, password) ∈ users db)
  then (mkResp (Some ("session:" +:+ email)) None, db)
  else (mkResp None (Some (RemoteError "Invalid login credentials")), db).

Definition sign_out (db : DB) : option Err * DB := (None, db).

Definition client : Client DB string := mkClient exec exec1 sign_in sign_out.

Definition clock (n : nat) : string :=
  "T" +:+ DecimalString.NilZero.string_of_uint (Nat.to_uint n).

(** A world with nothing sent, logged, subscribed or fetched yet. *)
Definition fresh_world (db : DB) : World DB :=
  mkWorld db [] [] 0%nat [] [] [] true [] true.

End MemDB.

(** ** Concrete inputs *)

Module Examples.
Import MemDB.

Definition hammer : row :=
  list_to_map [ ("id", VStr "t1"); ("name", VStr "Hammer");
                ("stock", VNum 5); ("available_stock", VNum 5) ].

(** What the form for a new tool passes to [addTool]. *)
Definition new_drill : row :=
  list_to_map [ ("name", VStr "Drill"); ("stock", VNum 4) ].

(** An active check-out of 2 hammers. *)
Definition lent : row :=
  list_to_map [ ("id", VStr "m1"); ("tool_id", VStr "t1");
                ("tool_name", VStr "Hammer"); ("type", VStr "checkout");
                ("quantity", VNum 2); ("user_name", VStr "ana");
                ("area", VStr "shop"); ("checkout_date", VStr "2024-01-02");
                ("status", VStr "active") ].

(** An older check-out, already returned. *)
Definition returned : row :=
  list_to_map [ ("id", VStr "m0"); ("tool_id", VStr "t1");
                ("tool_name", VStr "Hammer"); ("type", VStr "checkout");
                ("quantity", VNum 1); ("user_name", VStr "luis");
                ("area", VStr "yard"); ("checkout_date", VStr "2024-01-01");
                ("status", VStr "returned") ].

Definition db (tools movements : list row) (denied : list (string * string))
    : DB :=
  mkDB {[ "tools" := tools; "movements" := movements ]} denied
       [("ana@example.org", "secret")] 0.

(** One hammer, nothing lent. *)
Definition db_idle : DB := db [hammer] [] [].

(** 3 of 5 hammers available, one active check-out of 2. *)
Definition db_lent : DB :=
  db [<["available_stock" := VNum 3]> hammer] [returned; lent] [].

Definition db_lent_no_insert : DB :=
  db [<["available_stock" := VNum 3]> hammer] [returned; lent]
     [("insert", "movements")].

(** One active check-out, on a backend that rejects updates of [movements]. *)
Definition db_lent_no_update : DB :=
  db [<["available_stock" := VNum 3]> hammer] [returned; lent]
     [("update", "movements")].

(** A backend that rejects reading [movements]. *)
Definition db_no_select : DB := db [hammer] [lent] [("select", "movements")].

Definition w_idle : World DB := fresh_world db_idle.
Definition w_lent : World DB := fresh_world db_lent.

End Examples.

(** ** Vocabulary of the properties *)

(** What it means for a [ToolUsage] to mirror a movement row. *)
Definition mirrors (u : ToolUsage) (m : row) : Prop :=
  tool_id u = get m "tool_id" /\
  tool_name u = get m "tool_name" /\
  user_name u = get m "user_name" /\
  area u = get m "area" /\
  quantity u = get m "quantity" /\
  checkout_date u = get m "checkout_date" /\
  movement_id u = get m "id".


(** What running the callbacks of the subscriptions [l] amounts to: each
    one runs the fetch functions of its hook. *)
Fixpoint refetched {B AuthData : Type} (c : Client B AuthData)
    (l : list Subscription) (w : World B) : World B :=
  match l with
  | [] => w
  | s :: l' =>
      refetched c l'
        match sub_handler s with
        | ToolsOnTools =>
            after (useTools.fetchTools B AuthData (Some c)) w
        | ToolsOnMovements =>
            after (useTools.fetchTools B AuthData (Some c))
                  (after (useTools.fetchToolsInUse B AuthData (Some c)) w)
        | MovementsOnMovements =>
            after (useMovements.fetchMovements B AuthData (Some c)) w
        end
  end.




(** The error a write reports to its caller, if it returned at all. *)
Definition error_of {T} (o : Outcome (Resp T)) : option Err :=
  match o with
  | Returned r => error r
  | Thrown e => Some e
  end.

(** The behaviour "a failed call is logged and nothing else is done", for
    [fetchMovements]: if its select fails, the movements fetched before are
    still there. *)
Definition failed_fetch_keeps_movements {B AuthData : Type}
    (c : Client B AuthData) (w : World B) : Prop :=
  forall e : Err,
    error (fst (exec_many c useMovements.movements_query (remote w))) = Some e ->
    movements (after (useMovements.fetchMovements B AuthData (Some c)) w) =
    movements w.

(** The behaviour "the error of a failed call is caught, and logged or
    returned to the caller", for the update with which [createCheckin] marks
    the original movement returned: if that update fails with [e], then [e]
    is returned or logged. *)
Definition failed_mark_logged_or_returned {B AuthData : Type}
    (c : Client B AuthData) (clock : nat -> string)
    (movementId : string) (returnQuantity : Z) (userName : string)
    (notes : option string) (w : World B) : Prop :=
  let op := useMovements.createCheckin B AuthData (Some c) clock
              movementId returnQuantity userName notes in
  let read := Builder.single (useMovements.movement_query movementId) in
  let mark := useMovements.mark_returned_query movementId (clock (ticks w)) in
  forall (movement : row) (e : Err),
    data (fst (exec_single c read (remote w))) = Some movement ->
    error (fst (exec_many c mark (snd (exec_single c read (remote w)))))
      = Some e ->
    error_of (outcome op w) = Some e \/
    exists msg, LogError msg e ∈ console (after op w).




(** The React state of each hook. *)
Definition tools_state {B} (w : World B) : list row * list ToolUsage * bool :=
  (tools w, toolsInUse w, tools_loading w).

Definition movements_state {B} (w : World B) : list row * bool :=
  (movements w, movements_loading w).

(** A request that cannot reach more rows than the one with a given id:
    an update or a delete carries exactly one filter, on [id]. *)
Definition filtered_by_id (r : Request) : Prop :=
  match r with
  | RQuery q =>
      match q_verb q with
      | Update _ | Delete => exists id : val, q_eq q = [("id", id)]
      | Select _ | Insert _ => True
      end
  | _ => True
  end.

(** A request that keeps the history of movements: it deletes no movement,
    and what it rewrites of one is its [status], to 'returned', and its
    [checkin_date]; what it rewrites of a tool is its [available_stock]. *)
Definition keeps_history (r : Request) : Prop :=
  match r with
  | RQuery q =>
      match q_verb q with
      | Select _ => True
      | Insert _ => q_table q = "movements"
      | Update payload =>
          (q_table q = "movements" /\
           dom payload = {[ "status"; "checkin_date" ]} /\
           get payload "status" = VStr "returned") \/
          (q_table q = "tools" /\ dom payload = {[ "available_stock" ]})
      | Delete => False
      end
  | _ => True
  end.

(** A request of the inventory hook: it writes to [tools] only. *)
Definition writes_tools_only (r : Request) : Prop :=
  match r with
  | RQuery q =>
      match q_verb q with
      | Select _ => True
      | Insert _ | Update _ | Delete => q_table q = "tools"
      end
  | _ => True
  end.


(** The requests of an operation all satisfy [P], in whatever world it
    runs. *)
Definition all_requests {B A} (P : Request -> Prop) (op : M B A) : Prop :=
  forall w : World B, Forall P (issued op w).

(** More concrete inputs: a tool without [available_stock], and one whose
    [available_stock] is null. *)
Module EdgeExamples.

Definition saw : row :=
  list_to_map [ ("id", VStr "t2"); ("name", VStr "Saw"); ("stock", VNum 2) ].

Definition file : row :=
  list_to_map [ ("id", VStr "t3"); ("name", VStr "File"); ("stock", VNum 2);
                ("available_stock", VNull) ].

Definition db_odd : MemDB.DB := Examples.db [saw; file] [] [].

End EdgeExamples.

(** * Properties *)

(** ** The monad *)

Lemma issued_of_trace {B A} (op : M B A) (w : World B) (l : list Request) :
  trace (after op w) = trace w ++ l -> issued op w = l.
Proof. unfold issued, after. intros ->. by rewrite drop_app_length. Qed.

Lemma run_eta {B A} (op : M B A) (w : World B) :
  op w = (outcome op w, after op w).
Proof. unfold outcome, after. by destruct (op w). Qed.

Lemma bind_returned {B A C} (m : M B A) (k : A -> M B C) (w : World B) (a : A) :
  outcome m w = Returned a -> bind m k w = k a (after m w).
Proof.
  unfold outcome, after, bind. destruct (m w) as [o w']. simpl. by intros ->.
Qed.

Lemma bind_thrown {B A C} (m : M B A) (k : A -> M B C) (w : World B) (e : Err) :
  outcome m w = Thrown e -> bind m k w = (Thrown e, after m w).
Proof.
  unfold outcome, after, bind. destruct (m w) as [o w']. simpl. by intros ->.
Qed.

(** ** Run equations of useTools with a configured client *)

Section ToolsRuns.
Context {B AuthData : Type}.
Variable c : Client B AuthData.
Variable clock : nat -> string.

#[local] Abbreviation fetchTools := (useTools.fetchTools B AuthData (Some c)).
#[local] Abbreviation fetchToolsInUse := (useTools.fetchToolsInUse B AuthData (Some c)).

Lemma fetchTools_run (w : World B) :
  fetchTools w =
    let (r, b) := exec_many c useTools.tools_query (remote w) in
    let w' := sent (RQuery useTools.tools_query) b w in
    (Returned tt,
     match error r with
     | Some e => logged (LogError "Error fetching tools:" e) w'
     | None => with_tools (or_empty (data r)) w'
     end).
Proof.
  unfold fetchTools, useTools.fetchTools, try_catch, bind, await_many, deref, ret.
  destruct (exec_many c useTools.tools_query (remote w)) as [[d [e|]] b];
    reflexivity.
Qed.

Lemma fetchToolsInUse_run (w : World B) :
  fetchToolsInUse w =
    let (r, b) := exec_many c useTools.active_movements_query (remote w) in
    let w' := sent (RQuery useTools.active_movements_query) b w in
    (Returned tt,
     match error r with
     | Some e => logged (LogError "Error fetching tools in use:" e) w'
     | None => with_toolsInUse (map useTools.usage_of (or_empty (data r))) w'
     end).
Proof.
  unfold fetchToolsInUse, useTools.fetchToolsInUse, try_catch, bind,
    await_many, deref, ret.
  destruct (exec_many c useTools.active_movements_query (remote w))
    as [[d [e|]] b]; reflexivity.
Qed.

Lemma fetchTools_returns (w : World B) : outcome fetchTools w = Returned tt.
Proof.
  unfold outcome. rewrite fetchTools_run.
  by destruct (exec_many c useTools.tools_query (remote w)).
Qed.

Lemma fetchToolsInUse_returns (w : World B) :
  outcome fetchToolsInUse w = Returned tt.
Proof.
  unfold outcome. rewrite fetchToolsInUse_run.
  by destruct (exec_many c useTools.active_movements_query (remote w)).
Qed.

Lemma fetchTools_trace (w : World B) :
  trace (after fetchTools w) = trace w ++ [RQuery useTools.tools_query].
Proof.
  unfold after. rewrite fetchTools_run.
  destruct (exec_many c useTools.tools_query (remote w)) as [[d [e|]] b];
    reflexivity.
Qed.

Lemma fetchToolsInUse_trace (w : World B) :
  trace (after fetchToolsInUse w) =
  trace w ++ [RQuery useTools.active_movements_query].
Proof.
  unfold after. rewrite fetchToolsInUse_run.
  destruct (exec_many c useTools.active_movements_query (remote w))
    as [[d [e|]] b]; reflexivity.
Qed.

(** The three writes of useTools: the query is sent; on an error the error
    is returned and nothing else happens, otherwise the tools are fetched
    again before the result is returned. *)
Lemma addTool_run (tool : row) (w : World B) :
  useTools.addTool B AuthData (Some c) tool w =
    let q := Builder.single (useTools.addTool_query tool) in
    let (r, b) := exec_single c q (remote w) in
    let w' := sent (RQuery q) b w in
    match error r with
    | Some e => (Returned (mkResp None (Some e)), w')
    | None => (Returned (mkResp (data r) None), after fetchTools w')
    end.
Proof.
  unfold useTools.addTool, try_catch, bind, await_single, deref, ret, throw.
  destruct (exec_single c _ (remote w)) as [[d [e|]] b]; cbn; [done|].
  fold fetchTools. by rewrite (run_eta fetchTools), fetchTools_returns.
Qed.

Lemma updateTool_run (id : string) (updates : row) (w : World B) :
  useTools.updateTool B AuthData (Some c) clock id updates w =
    let q := Builder.single
               (useTools.updateTool_query id updates (clock (ticks w))) in
    let (r, b) := exec_single c q (remote w) in
    let w' := sent (RQuery q) b (ticked w) in
    match error r with
    | Some e => (Returned (mkResp None (Some e)), w')
    | None => (Returned (mkResp (data r) None), after fetchTools w')
    end.
Proof.
  unfold useTools.updateTool, try_catch, bind, await_single, deref, now,
    ret, throw.
  change (remote (ticked w)) with (remote w).
  destruct (exec_single c _ (remote w)) as [[d [e|]] b]; cbn; [done|].
  fold fetchTools. by rewrite (run_eta fetchTools), fetchTools_returns.
Qed.

Lemma deleteTool_run (id : string) (w : World B) :
  useTools.deleteTool B AuthData (Some c) id w =
    let q := useTools.deleteTool_query id in
    let (r, b) := exec_many c q (remote w) in
    let w' := sent (RQuery q) b w in
    match error r with
    | Some e => (Returned (Some e), w')
    | None => (Returned None, after fetchTools w')
    end.
Proof.
  unfold useTools.deleteTool, try_catch, bind, await_many, deref, ret, throw.
  destruct (exec_many c _ (remote w)) as [[d [e|]] b]; cbn; [done|].
  fold fetchTools. by rewrite (run_eta fetchTools), fetchTools_returns.
Qed.

End ToolsRuns.

(** ** Run equations of useMovements with a configured client *)

Section MovementsRuns.
Context {B AuthData : Type}.
Variable c : Client B AuthData.
Variable clock : nat -> string.

#[local] Abbreviation fetchMovements := (useMovements.fetchMovements B AuthData (Some c)).

Lemma fetchMovements_run (w : World B) :
  fetchMovements w =
    let (r, b) := exec_many c useMovements.movements_query (remote w) in
    let w' := sent (RQuery useMovements.movements_query) b w in
    (Returned tt,
     with_movements_loading false
       match error r with
       | Some e =>
           with_movements []
             (logged (LogError "Error fetching movements:" e) w')
       | None => with_movements (or_empty (data r)) w'
       end).
Proof.
  unfold fetchMovements, useMovements.fetchMovements, try_finally, try_catch,
    bind, await_many, ret, throw.
  destruct (exec_many c useMovements.movements_query (remote w))
    as [[d [e|]] b]; reflexivity.
Qed.

Lemma fetchMovements_returns (w : World B) :
  outcome fetchMovements w = Returned tt.
Proof.
  unfold outcome. rewrite fetchMovements_run.
  by destruct (exec_many c useMovements.movements_query (remote w)).
Qed.

Lemma fetchMovements_trace (w : World B) :
  trace (after fetchMovements w) =
  trace w ++ [RQuery useMovements.movements_query].
Proof.
  unfold after. rewrite fetchMovements_run.
  destruct (exec_many c useMovements.movements_query (remote w))
    as [[d [e|]] b]; reflexivity.
Qed.

(** [createCheckout] in direct style: the stock is read and checked, the
    movement inserted, the stock written, the movements fetched again. *)
Lemma createCheckout_run (toolId toolName : string) (quantity : Z)
    (userName area : string) (notes : option string) (w : World B) :
  useMovements.createCheckout B AuthData (Some c) clock
      toolId toolName quantity userName area notes w =
    let q0 := Builder.single (useMovements.stock_query (VStr toolId)) in
    let (rt, b0) := exec_single c q0 (remote w) in
    let w0 := sent (RQuery q0) b0 w in
    let insufficient :=
      (Returned (mkResp None (Some (JsError "Stock insuficiente"))), w0) in
    match data rt with
    | None => insufficient
    | Some tool =>
        if js_lt (get tool "available_stock") quantity then insufficient
        else
          let q1 := Builder.single
                      (useMovements.insert_movement_query
                         (useMovements.checkout_row toolId toolName quantity
                            userName area notes (clock (ticks w)))) in
          let (r, b1) := exec_single c q1 b0 in
          let w1 := sent (RQuery q1) b1 (ticked w0) in
          match error r with
          | Some e => (Returned (mkResp None (Some e)), w1)
          | None =>
              let q2 := useMovements.stock_update_query (VStr toolId)
                          (js_sub (get tool "available_stock") quantity) in
              let (_, b2) := exec_many c q2 b1 in
              (Returned (mkResp (data r) None),
               after fetchMovements (sent (RQuery q2) b2 w1))
          end
    end.
Proof.
  unfold useMovements.createCheckout, try_catch, bind, await_single,
    await_many, now, ret, throw.
  destruct (exec_single c _ (remote w)) as [[[tool|] et] b0]; cbn; [|done].
  destruct (js_lt _ _); [done|]. cbn.
  destruct (exec_single c _ b0) as [[d [e|]] b1]; cbn; [done|].
  destruct (exec_many c _ b1) as [r2 b2]; cbn.
  fold fetchMovements.
  by rewrite (run_eta fetchMovements), fetchMovements_returns.
Qed.

(** [createCheckin] in direct style. *)
Lemma createCheckin_run (movementId : string) (returnQuantity : Z)
    (userName : string) (notes : option string) (w : World B) :
  useMovements.createCheckin B AuthData (Some c) clock
      movementId returnQuantity userName notes w =
    let q0 := Builder.single (useMovements.movement_query movementId) in
    let (rm, b0) := exec_single c q0 (remote w) in
    let w0 := sent (RQuery q0) b0 w in
    match data rm with
    | None =>
        (Returned (mkResp None (Some (JsError "Movimiento no encontrado"))), w0)
    | Some movement =>
        let q1 := useMovements.mark_returned_query movementId (clock (ticks w)) in
        let (_, b1) := exec_many c q1 b0 in
        let w1 := sent (RQuery q1) b1 (ticked w0) in
        let q2 := Builder.single
                    (useMovements.insert_movement_query
                       (useMovements.checkin_row movement returnQuantity
                          userName notes (clock (S (ticks w))))) in
        let (r, b2) := exec_single c q2 b1 in
        let w2 := sent (RQuery q2) b2 (ticked w1) in
        match error r with
        | Some e => (Returned (mkResp None (Some e)), w2)
        | None =>
            let q3 := Builder.single
                        (useMovements.stock_query (get movement "tool_id")) in
            let (rt, b3) := exec_single c q3 b2 in
            let w3 := sent (RQuery q3) b3 w2 in
            match data rt with
            | Some tool =>
                let q4 := useMovements.stock_update_query
                            (get movement "tool_id")
                            (js_add (get tool "available_stock")
                                    returnQuantity) in
                let (_, b4) := exec_many c q4 b3 in
                (Returned (mkResp (data r) None),
                 after fetchMovements (sent (RQuery q4) b4 w3))
            | None =>
                (Returned (mkResp (data r) None), after fetchMovements w3)
            end
        end
    end.
Proof.
  unfold useMovements.createCheckin, try_catch, bind, await_single,
    await_many, now, ret, throw.
  destruct (exec_single c _ (remote w)) as [[[movement|] em] b0]; cbn; [|done].
  destruct (exec_many c _ b0) as [r1 b1]; cbn.
  destruct (exec_single c _ b1) as [[d [e|]] b2]; cbn; [done|].
  destruct (exec_single c _ b2) as [[[tool|] et] b3]; cbn.
  - destruct (exec_many c _ b3) as [r4 b4]; cbn.
    fold fetchMovements.
    by rewrite (run_eta fetchMovements), fetchMovements_returns.
  - fold fetchMovements.
    by rewrite (run_eta fetchMovements), fetchMovements_returns.
Qed.

End MovementsRuns.

(** ** addTool: the inserted row *)

(** C10.  For every tool created via [addTool] (a tool record without [id],
    [created_at] and [updated_at], as its parameter type demands), the one
    write sent is an insert into [tools] of a single row whose
    [available_stock] is the given [stock], which has no [id], [created_at]
    or [updated_at], and which is the given record in every other property;
    the only other request, if any, is the re-fetch of the tools. *)
Theorem addTool_inserts_fully_available {B AuthData : Type}
    (c : Client B AuthData) (tool : row) (w : World B) :
  tool !! "id" = None ->
  tool !! "created_at" = None ->
  tool !! "updated_at" = None ->
  exists (r : row) (rest : list Request),
    issued (useTools.addTool B AuthData (Some c) tool) w =
      RQuery (mkQuery "tools" (Insert [r]) [] None true true) :: rest /\
    (rest = [] \/ rest = [RQuery useTools.tools_query]) /\
    get r "available_stock" = get tool "stock" /\
    r !! "id" = None /\ r !! "created_at" = None /\ r !! "updated_at" = None /\
    (forall k : string, k <> "available_stock" -> r !! k = tool !! k).
Proof.
  intros Hid Hc Hu.
  exists (<["available_stock" := get tool "stock"]> tool).
  assert (Hrest : exists rest,
    issued (useTools.addTool B AuthData (Some c) tool) w =
      RQuery (Builder.single (useTools.addTool_query tool)) :: rest /\
    (rest = [] \/ rest = [RQuery useTools.tools_query])).
  { unfold issued. rewrite addTool_run. cbv zeta.
    destruct (exec_single c _ (remote w)) as [[d [e|]] b]; cbn [error snd].
    - exists []. split; [|by left]. cbn. by rewrite drop_app_length.
    - exists [RQuery useTools.tools_query]. split; [|by right].
      rewrite fetchTools_trace. cbn. rewrite <- app_assoc.
      by rewrite drop_app_length. }
  destruct Hrest as (rest & Hiss & Hrest). exists rest.
  split; [exact Hiss|]. split; [exact Hrest|].
  unfold get. rewrite lookup_insert_eq. split; [done|].
  rewrite !lookup_insert_ne by done.
  repeat split; try done.
  intros k Hk. by rewrite lookup_insert_ne.
Qed.

Lemma addTool_inserts_fully_available_witness :
  exists (r : row) (rest : list Request),
    issued (useTools.addTool MemDB.DB string (Some MemDB.client)
              Examples.new_drill) Examples.w_idle =
      RQuery (mkQuery "tools" (Insert [r]) [] None true true) :: rest /\
    (rest = [] \/ rest = [RQuery useTools.tools_query]) /\
    get r "available_stock" = get Examples.new_drill "stock" /\
    r !! "id" = None /\ r !! "created_at" = None /\ r !! "updated_at" = None /\
    (forall k : string, k <> "available_stock" ->
       r !! k = Examples.new_drill !! k).
Proof.
  apply (addTool_inserts_fully_available MemDB.client Examples.new_drill
           Examples.w_idle); vm_compute; reflexivity.
Defined.

(** ** The auth helper *)

(** C8.  With a client, [signIn] sends the given email and password to the
    backend's sign-in call, as its only request, and returns the data and
    the error of that call as they are; [signOut] sends the sign-out call,
    as its only request, and returns its error as it is.  Nothing else in
    the world changes. *)
Theorem auth_helper_forwards {B AuthData : Type} (c : Client B AuthData)
    (email password : string) (w : World B) :
  supabase_lib.signIn B AuthData (Some c) email password w =
    (Returned (fst (auth_signInWithPassword c email password (remote w))),
     sent (RSignIn email password)
          (snd (auth_signInWithPassword c email password (remote w))) w) /\
  supabase_lib.signOut B AuthData (Some c) w =
    (Returned (mkSignOut (fst (auth_signOut c (remote w)))),
     sent RSignOut (snd (auth_signOut c (remote w))) w).
Proof.
  unfold supabase_lib.signIn, supabase_lib.signOut, bind, ret, await_signIn,
    await_signOut.
  destruct (auth_signInWithPassword c email password (remote w)) as [[d e] b].
  destruct (auth_signOut c (remote w)) as [e' b'].
  split; reflexivity.
Qed.

(** ** The client that is not configured *)

(** C9.  Without a client, [fetchMovements] warns, sets the movements to the
    empty list and loading to false; [createCheckout], [createCheckin] and
    [signIn] return data null with the error 'Supabase not configured', and
    [signOut] returns that error (its result has no data); none of the five
    sends a request or touches the backend.  useTools has no such guard: its
    operations run into the null client, so that the fetches log a
    [TypeError], the writes return it as their error and the mount effect
    throws it when it opens the first channel. *)
Theorem not_configured {B AuthData : Type} (clock : nat -> string)
    (toolId toolName userName area movementId email password id : string)
    (quantity : Z) (notes : option string) (tool updates : row) (w : World B) :
  let not_configured := JsError "Supabase not configured" in
  (* useMovements and the auth helper *)
  useMovements.fetchMovements B AuthData None w =
    (Returned tt,
     with_movements_loading false
       (with_movements []
          (logged
             (LogWarn "Supabase not configured - using empty movements list")
             w))) /\
  useMovements.createCheckout B AuthData None clock
      toolId toolName quantity userName area notes w =
    (Returned (mkResp None (Some not_configured)), w) /\
  useMovements.createCheckin B AuthData None clock
      movementId quantity userName notes w =
    (Returned (mkResp None (Some not_configured)), w) /\
  supabase_lib.signIn B AuthData None email password w =
    (Returned (mkResp None (Some not_configured)), w) /\
  supabase_lib.signOut B AuthData None w =
    (Returned (mkSignOut (Some not_configured)), w) /\
  (* useTools *)
  useTools.fetchTools B AuthData None w =
    (Returned tt,
     logged (LogError "Error fetching tools:" (TypeError "from")) w) /\
  useTools.fetchToolsInUse B AuthData None w =
    (Returned tt,
     logged (LogError "Error fetching tools in use:" (TypeError "from")) w) /\
  useTools.addTool B AuthData None tool w =
    (Returned (mkResp None (Some (TypeError "from"))), w) /\
  useTools.updateTool B AuthData None clock id updates w =
    (Returned (mkResp None (Some (TypeError "from"))), w) /\
  useTools.deleteTool B AuthData None id w =
    (Returned (Some (TypeError "from")), w) /\
  outcome (useTools.mount B AuthData None) w = Thrown (TypeError "channel").
Proof. cbv zeta. repeat split; reflexivity. Qed.

(** ** fetchToolsInUse: the projection of the active movements *)

Lemma usage_of_mirrors (l : list row) :
  Forall2 mirrors (map useTools.usage_of l) l.
Proof. induction l; constructor; [by repeat split | done]. Qed.

(** C7.  [fetchToolsInUse] asks the backend for all columns of the rows of
    [movements] whose [status] is 'active', ordered by [checkout_date]
    descending, and for nothing else.  When that call succeeds with the rows
    [rows], [toolsInUse] becomes their projection, row by row and in the
    order the backend returned them: each entry copies [tool_id],
    [tool_name], [user_name], [area], [quantity] and [checkout_date] from
    its row and takes the row's [id] as [movement_id]. *)
Theorem toolsInUse_mirrors_active_movements {B AuthData : Type}
    (c : Client B AuthData) (w : World B) (rows : option (list row)) (b : B) :
  exec_many c (mkQuery "movements" (Select "*") [("status", VStr "active")]
                       (Some ("checkout_date", false)) false false)
            (remote w) = (mkResp rows None, b) ->
  let fetchToolsInUse := useTools.fetchToolsInUse B AuthData (Some c) in
  issued fetchToolsInUse w =
    [RQuery (mkQuery "movements" (Select "*") [("status", VStr "active")]
                     (Some ("checkout_date", false)) false false)] /\
  remote (after fetchToolsInUse w) = b /\
  toolsInUse (after fetchToolsInUse w) =
    map useTools.usage_of (default [] rows) /\
  Forall2 mirrors (toolsInUse (after fetchToolsInUse w)) (default [] rows).
Proof.
  intros Hexec fetchToolsInUse.
  assert (Hrun : fetchToolsInUse w =
    (Returned tt,
     with_toolsInUse (map useTools.usage_of (default [] rows))
       (sent (RQuery useTools.active_movements_query) b w))).
  { unfold fetchToolsInUse. rewrite fetchToolsInUse_run.
    change useTools.active_movements_query
      with (mkQuery "movements" (Select "*") [("status", VStr "active")]
                    (Some ("checkout_date", false)) false false).
    by rewrite Hexec. }
  split.
  { apply issued_of_trace. unfold after. by rewrite Hrun. }
  unfold after. rewrite Hrun. cbn.
  split; [done|]. split; [done|]. apply usage_of_mirrors.
Qed.

Lemma toolsInUse_mirrors_active_movements_witness :
  let fetchToolsInUse :=
    useTools.fetchToolsInUse MemDB.DB string (Some MemDB.client) in
  issued fetchToolsInUse Examples.w_lent =
    [RQuery (mkQuery "movements" (Select "*") [("status", VStr "active")]
                     (Some ("checkout_date", false)) false false)] /\
  remote (after fetchToolsInUse Examples.w_lent) = Examples.db_lent /\
  toolsInUse (after fetchToolsInUse Examples.w_lent) =
    map useTools.usage_of (default [] (Some [Examples.lent])) /\
  Forall2 mirrors (toolsInUse (after fetchToolsInUse Examples.w_lent))
          (default [] (Some [Examples.lent])).
Proof.
  apply (toolsInUse_mirrors_active_movements MemDB.client Examples.w_lent
           (Some [Examples.lent]) Examples.db_lent).
  vm_compute. reflexivity.
Defined.

(** On the reference backend the rows returned are exactly the active rows
    of the table, in the order the backend sorts them. *)
Lemma toolsInUse_on_MemDB (w : World MemDB.DB) :
  ("select", "movements") ∉ MemDB.denied (remote w) ->
  toolsInUse (after (useTools.fetchToolsInUse MemDB.DB string
                       (Some MemDB.client)) w) =
    map useTools.usage_of
      (MemDB.ordered (Some ("checkout_date", false))
         (List.filter (fun m => bool_decide (get m "status" = VStr "active"))
            (MemDB.table_rows (remote w) "movements"))).
Proof.
  intros Hok. unfold after. rewrite fetchToolsInUse_run.
  cbn [exec_many MemDB.client]. unfold MemDB.exec.
  cbn [q_verb q_table useTools.active_movements_query Builder.order
       Builder.eq Builder.select Builder.from MemDB.verb_name q_eq q_order].
  rewrite bool_decide_eq_false_2 by exact Hok.
  cbn [error data snd toolsInUse with_toolsInUse or_empty default].
  f_equal. unfold MemDB.project. cbn [String.eqb Ascii.eqb Bool.eqb].
  rewrite map_id. unfold id, Builder.from. f_equal.
  apply filter_ext. intros m. unfold MemDB.matches. cbn. by rewrite andb_true_r.
Qed.

(** ** Mounting, realtime events and unmounting *)

Section RealtimeRuns.
Context {B AuthData : Type}.
Variable c : Client B AuthData.

#[local] Abbreviation fetchTools := (useTools.fetchTools B AuthData (Some c)).
#[local] Abbreviation fetchToolsInUse := (useTools.fetchToolsInUse B AuthData (Some c)).
#[local] Abbreviation fetchMovements := (useMovements.fetchMovements B AuthData (Some c)).

Lemma fetchTools_subs (w : World B) : subs (after fetchTools w) = subs w.
Proof.
  unfold after. rewrite fetchTools_run.
  by destruct (exec_many c _ (remote w)) as [[d [e|]] b].
Qed.

Lemma fetchToolsInUse_subs (w : World B) :
  subs (after fetchToolsInUse w) = subs w.
Proof.
  unfold after. rewrite fetchToolsInUse_run.
  by destruct (exec_many c _ (remote w)) as [[d [e|]] b].
Qed.

Lemma fetchMovements_subs (w : World B) :
  subs (after fetchMovements w) = subs w.
Proof.
  unfold after. rewrite fetchMovements_run.
  by destruct (exec_many c _ (remote w)) as [[d [e|]] b].
Qed.

Lemma handler_body_run (h : Handler) (w : World B) :
  handler_body B AuthData (Some c) h w =
    (Returned tt,
     match h with
     | ToolsOnTools => after fetchTools w
     | ToolsOnMovements => after fetchTools (after fetchToolsInUse w)
     | MovementsOnMovements => after fetchMovements w
     end).
Proof.
  destruct h; cbn [handler_body].
  - unfold useTools.on_tools_change. fold fetchTools.
    by rewrite (run_eta fetchTools), fetchTools_returns.
  - unfold useTools.on_movements_change, bind. fold fetchToolsInUse fetchTools.
    rewrite (run_eta fetchToolsInUse), fetchToolsInUse_returns.
    by rewrite (run_eta fetchTools), fetchTools_returns.
  - unfold useMovements.on_movements_change. fold fetchMovements.
    by rewrite (run_eta fetchMovements), fetchMovements_returns.
Qed.

Lemma run_handlers_run (l : list Subscription) (w : World B) :
  run_handlers B AuthData (Some c) l w = (Returned tt, refetched c l w).
Proof.
  revert w. induction l as [|s l IH]; intros w; [reflexivity|].
  cbn [run_handlers refetched]. unfold bind.
  by rewrite handler_body_run, IH.
Qed.

Lemma notify_run (table : string) (w : World B) :
  notify B AuthData (Some c) table w =
    (Returned tt, refetched c (listeners table (subs w)) w).
Proof. unfold notify. apply run_handlers_run. Qed.


End RealtimeRuns.

Section MountRuns.
Context {B AuthData : Type}.
Variable c : Client B AuthData.

#[local] Abbreviation fetchTools := (useTools.fetchTools B AuthData (Some c)).
#[local] Abbreviation fetchToolsInUse := (useTools.fetchToolsInUse B AuthData (Some c)).
#[local] Abbreviation fetchMovements := (useMovements.fetchMovements B AuthData (Some c)).

Lemma useTools_mount_run (w : World B) :
  useTools.mount B AuthData (Some c) w =
    let w1 := with_tools_loading false
                (after fetchToolsInUse
                   (after fetchTools (with_tools_loading true w))) in
    let w2 := with_subs (subs w1 ++ [useTools.toolsSubscription])
                        (RSubscribe "tools" "*" "public" "tools") w1 in
    (Returned (unsubscribe useTools.toolsSubscription ;;
               unsubscribe useTools.movementsSubscription),
     with_subs (subs w2 ++ [useTools.movementsSubscription])
               (RSubscribe "movements" "*" "public" "movements") w2).
Proof.
  unfold useTools.mount, useTools.loadData, useTools.setLoading, bind, deref,
    subscribe, ret.
  rewrite (run_eta fetchTools), fetchTools_returns.
  rewrite (run_eta fetchToolsInUse), fetchToolsInUse_returns.
  reflexivity.
Qed.

Lemma useMovements_mount_run (w : World B) :
  useMovements.mount B AuthData (Some c) w =
    let w1 := after fetchMovements w in
    (Returned (Some (unsubscribe useMovements.subscription)),
     with_subs (subs w1 ++ [useMovements.subscription])
               (RSubscribe "movements" "*" "public" "movements") w1).
Proof.
  unfold useMovements.mount, bind, subscribe, ret.
  rewrite (run_eta fetchMovements), fetchMovements_returns.
  reflexivity.
Qed.

Lemma useTools_mount_subs (w : World B) :
  subs (after (useTools.mount B AuthData (Some c)) w) =
  subs w ++ [useTools.toolsSubscription; useTools.movementsSubscription].
Proof.
  unfold after. rewrite useTools_mount_run. cbn.
  rewrite fetchToolsInUse_subs, fetchTools_subs. cbn.
  by rewrite <- app_assoc.
Qed.

Lemma useMovements_mount_subs (w : World B) :
  subs (after (useMovements.mount B AuthData (Some c)) w) =
  subs w ++ [useMovements.subscription].
Proof.
  unfold after. rewrite useMovements_mount_run. cbn.
  by rewrite fetchMovements_subs.
Qed.



End MountRuns.

(** ** Fetch on mount, re-fetch after a write and on a change event *)

Section Refetch.
Context {B AuthData : Type}.
Variable c : Client B AuthData.
Variable clock : nat -> string.







End Refetch.



(** ** Realtime: subscribe on mount, re-fetch on event, unsubscribe on unmount *)

Section Delegation.
Context {B AuthData : Type}.
Variable c : Client B AuthData.

Lemma external_change_run (table : string) (b : B) (w : World B) :
  external_change B AuthData (Some c) table b w =
    (Returned tt, refetched c (listeners table (subs w)) (with_remote b w)).
Proof. unfold external_change. by rewrite notify_run. Qed.

Lemma external_change_unheard (table : string) (b : B) (w : World B) :
  (forall s, s ∈ subs w -> sub_table s <> table) ->
  external_change B AuthData (Some c) table b w = (Returned tt, with_remote b w).
Proof.
  intros Hno. rewrite external_change_run.
  replace (listeners table (subs w)) with (@nil Subscription); [done|].
  symmetry. unfold listeners. induction (subs w) as [|s l IH]; [done|].
  rewrite filter_cons. rewrite decide_False by (apply Hno; left).
  apply IH. intros s' Hs'. apply Hno. by right.
Qed.

Lemma unsubscribed_useTools (w : World B) :
  subs w = [useTools.toolsSubscription; useTools.movementsSubscription] ->
  let cleanup : M B unit :=
    unsubscribe useTools.toolsSubscription ;;
    unsubscribe useTools.movementsSubscription in
  issued cleanup w = [RUnsubscribe "tools"; RUnsubscribe "movements"] /\
  subs (after cleanup w) = [].
Proof.
  intros Hs. cbv zeta. split.
  - apply issued_of_trace. cbn. by rewrite <- app_assoc.
  - cbn. by rewrite Hs.
Qed.

Lemma unsubscribed_useMovements (w : World B) :
  subs w = [useMovements.subscription] ->
  let cleanup : M B unit := unsubscribe useMovements.subscription in
  issued cleanup w = [RUnsubscribe "movements"] /\
  subs (after cleanup w) = [].
Proof.
  intros Hs. cbv zeta. split.
  - by apply issued_of_trace.
  - cbn. by rewrite Hs.
Qed.

End Delegation.

(** C6.  With a client, in a world where the hooks are not mounted yet:
    - mounting useTools subscribes to every postgres change event of the
      tables [tools] and [movements], mounting useMovements to those of
      [movements];
    - when the backend announces a change, a mounted hook does what its
      fetch functions do and nothing else: useTools runs [fetchTools] on a
      change of [tools], and [fetchToolsInUse] and [fetchTools] on a change
      of [movements]; useMovements runs [fetchMovements] on a change of
      [movements];
    - a change of any other table leaves the local state as it is;
    - the clean-up returned by the mount removes the hook's subscriptions,
      after which no change reaches the hook. *)
Theorem realtime_delegated_to_subscriptions {B AuthData : Type}
    (c : Client B AuthData) (b : B) (w : World B) :
  subs w = [] ->
  let mountTools := useTools.mount B AuthData (Some c) in
  let mountMovements := useMovements.mount B AuthData (Some c) in
  let fetchTools := useTools.fetchTools B AuthData (Some c) in
  let fetchToolsInUse := useTools.fetchToolsInUse B AuthData (Some c) in
  let fetchMovements := useMovements.fetchMovements B AuthData (Some c) in
  let change := external_change B AuthData (Some c) in
  let wt := after mountTools w in
  let wm := after mountMovements w in
  (* subscribe on mount *)
  subs wt = [mkSub "tools" "*" "public" "tools" ToolsOnTools;
             mkSub "movements" "*" "public" "movements" ToolsOnMovements] /\
  subs wm = [mkSub "movements" "*" "public" "movements" MovementsOnMovements] /\
  (* re-fetch on a change event *)
  change "tools" b wt = (Returned tt, after fetchTools (with_remote b wt)) /\
  change "movements" b wt =
    (Returned tt, after fetchTools (after fetchToolsInUse (with_remote b wt))) /\
  change "movements" b wm =
    (Returned tt, after fetchMovements (with_remote b wm)) /\
  (* no other reaction *)
  change "tools" b wm = (Returned tt, with_remote b wm) /\
  (forall table : string, table <> "tools" -> table <> "movements" ->
     change table b wt = (Returned tt, with_remote b wt) /\
     change table b wm = (Returned tt, with_remote b wm)) /\
  (* unsubscribe on unmount *)
  exists unmountTools unmountMovements : M B unit,
    outcome mountTools w = Returned unmountTools /\
    outcome mountMovements w = Returned (Some unmountMovements) /\
    issued unmountTools wt = [RUnsubscribe "tools"; RUnsubscribe "movements"] /\
    issued unmountMovements wm = [RUnsubscribe "movements"] /\
    subs (after unmountTools wt) = [] /\
    subs (after unmountMovements wm) = [] /\
    (forall table : string,
       change table b (after unmountTools wt) =
         (Returned tt, with_remote b (after unmountTools wt)) /\
       change table b (after unmountMovements wm) =
         (Returned tt, with_remote b (after unmountMovements wm))).
Proof.
  intros Hsubs. cbv zeta.
  pose proof (useTools_mount_subs c w) as Ht.
  pose proof (useMovements_mount_subs c w) as Hm.
  rewrite Hsubs in Ht, Hm. cbn [app] in Ht, Hm.
  split; [exact Ht|]. split; [exact Hm|].
  do 4 (split; [by rewrite external_change_run, ?Ht, ?Hm|]).
  split.
  { intros table H1 H2.
    split; apply external_change_unheard; intros s; rewrite ?Ht, ?Hm;
      intros Hs; repeat (apply elem_of_cons in Hs as [-> | Hs]); cbn;
      try congruence; by apply elem_of_nil in Hs. }
  destruct (unsubscribed_useTools _ Ht) as [Hi1 Hs1].
  destruct (unsubscribed_useMovements _ Hm) as [Hi2 Hs2].
  eexists _, _.
  split. { unfold outcome. by rewrite useTools_mount_run. }
  split. { unfold outcome. by rewrite useMovements_mount_run. }
  split; [exact Hi1|]. split; [exact Hi2|].
  split; [exact Hs1|]. split; [exact Hs2|].
  intros table.
  split; apply external_change_unheard; intros s; rewrite ?Hs1, ?Hs2;
    intros Hs; by apply elem_of_nil in Hs.
Qed.

Lemma realtime_delegated_to_subscriptions_witness :
  subs (after (useTools.mount MemDB.DB string (Some MemDB.client))
              Examples.w_idle) =
    [mkSub "tools" "*" "public" "tools" ToolsOnTools;
     mkSub "movements" "*" "public" "movements" ToolsOnMovements] /\
  external_change MemDB.DB string (Some MemDB.client) "movements"
      Examples.db_lent
      (after (useMovements.mount MemDB.DB string (Some MemDB.client))
             Examples.w_idle) =
    (Returned tt,
     after (useMovements.fetchMovements MemDB.DB string (Some MemDB.client))
       (with_remote Examples.db_lent
          (after (useMovements.mount MemDB.DB string (Some MemDB.client))
                 Examples.w_idle))).
Proof.
  destruct (realtime_delegated_to_subscriptions MemDB.client Examples.db_lent
              Examples.w_idle eq_refl) as (Ht & _ & _ & _ & Hm & _).
  split; [exact Ht | exact Hm].
Defined.

(** ** createCheckout: the stock guard *)

Lemma checkout_row_fields (toolId toolName : string) (quantity : Z)
    (userName area : string) (notes : option string) (t : string) :
  let r := useMovements.checkout_row toolId toolName quantity userName area
             notes t in
  get r "tool_id" = VStr toolId /\
  get r "tool_name" = VStr toolName /\
  get r "type" = VStr "checkout" /\
  get r "quantity" = VNum quantity /\
  get r "user_name" = VStr userName /\
  get r "area" = VStr area /\
  get r "notes" = opt_str notes /\
  get r "checkout_date" = VStr t /\
  get r "status" = VStr "active".
Proof. cbv zeta. repeat split; reflexivity. Qed.



(** On the reference backend: 2 of 5 hammers are lent, 3 stay available. *)
Lemma checkout_on_MemDB :
  let op := useMovements.createCheckout MemDB.DB string (Some MemDB.client)
              MemDB.clock "t1" "Hammer" 2 "ana" "shop" None in
  map (fun r => get r "available_stock")
      (MemDB.table_rows (remote Examples.w_idle) "tools") = [VNum 5] /\
  map (fun r => get r "available_stock")
      (MemDB.table_rows (remote (after op Examples.w_idle)) "tools")
    = [VNum 3] /\
  map (fun r => (get r "type", get r "status", get r "quantity"))
      (movements (after op Examples.w_idle))
    = [(VStr "checkout", VStr "active", VNum 2)].
Proof. cbv zeta. repeat split; vm_compute; reflexivity. Qed.


(** ** createCheckin: the stock comes back unchecked *)

Lemma checkin_row_fields (movement : row) (returnQuantity : Z)
    (userName : string) (notes : option string) (t : string) :
  let r := useMovements.checkin_row movement returnQuantity userName notes t in
  get r "tool_id" = get movement "tool_id" /\
  get r "tool_name" = get movement "tool_name" /\
  get r "type" = VStr "checkin" /\
  get r "quantity" = VNum returnQuantity /\
  get r "user_name" = VStr userName /\
  get r "area" = get movement "area" /\
  get r "notes" = opt_str notes /\
  get r "checkout_date" = get movement "checkout_date" /\
  get r "checkin_date" = VStr t /\
  get r "status" = VStr "returned".
Proof. cbv zeta. repeat split; reflexivity. Qed.


(** On the reference backend: of 5 hammers 3 are available and 2 lent;
    checking in 10 for that movement leaves 13 available. *)
Lemma checkin_can_exceed_stock :
  let op := useMovements.createCheckin MemDB.DB string (Some MemDB.client)
              MemDB.clock "m1" 10 "ana" None in
  map (fun r => (get r "stock", get r "available_stock"))
      (MemDB.table_rows (remote Examples.w_lent) "tools")
    = [(VNum 5, VNum 3)] /\
  map (fun r => (get r "stock", get r "available_stock"))
      (MemDB.table_rows (remote (after op Examples.w_lent)) "tools")
    = [(VNum 5, VNum 13)] /\
  error_of (outcome op Examples.w_lent) = None.
Proof. cbv zeta. repeat split; vm_compute; reflexivity. Qed.


(** ** Failures: logged or returned, never retried or undone *)

(** C5 (as stated) fails in two places.  Where the backend rejects the
    select, [fetchMovements] does more than log: it empties the movements
    fetched before.  Where the backend rejects the update that marks the
    movement returned, [createCheckin] neither logs nor returns the error. *)
Lemma failure_handling_as_stated_fails :
  ~ failed_fetch_keeps_movements MemDB.client
      (with_movements [Examples.lent]
         (MemDB.fresh_world Examples.db_no_select)) /\
  ~ failed_mark_logged_or_returned MemDB.client MemDB.clock "m1" 2 "ana" None
      (MemDB.fresh_world Examples.db_lent_no_update).
Proof.
  split.
  { unfold failed_fetch_keeps_movements. intros H.
    specialize (H (RemoteError "permission denied")).
    assert (Hempty :
      movements
        (after (useMovements.fetchMovements MemDB.DB string
                  (Some MemDB.client))
           (with_movements [Examples.lent]
              (MemDB.fresh_world Examples.db_no_select))) = [])
      by (vm_compute; reflexivity).
    rewrite Hempty in H. cbn [movements with_movements] in H.
    discriminate H. vm_compute. reflexivity. }
  unfold failed_mark_logged_or_returned. cbv zeta. intros H.
  destruct (H Examples.lent (RemoteError "permission denied"))
    as [Hreturned | [msg Hlogged]].
  - vm_compute. reflexivity.
  - vm_compute. reflexivity.
  - vm_compute in Hreturned. discriminate Hreturned.
  - replace (console _) with (@nil LogEntry) in Hlogged
      by (vm_compute; reflexivity).
    by apply elem_of_nil in Hlogged.
Qed.

(** What happens there: six requests, no error reported, nothing logged,
    and the stock is written although the movement is still active. *)
Lemma checkin_with_rejected_mark :
  let op := useMovements.createCheckin MemDB.DB string (Some MemDB.client)
              MemDB.clock "m1" 2 "ana" None in
  let w := MemDB.fresh_world Examples.db_lent_no_update in
  error_of (outcome op w) = None /\
  console (after op w) = [] /\
  length (issued op w) = 6%nat /\
  map (fun r => get r "available_stock")
      (MemDB.table_rows (remote (after op w)) "tools") = [VNum 5] /\
  map (fun r => (get r "id", get r "status"))
      (MemDB.table_rows (remote (after op w)) "movements")
    = [(VStr "m0", VStr "returned"); (VStr "m1", VStr "active");
       (VStr "gen-0", VStr "returned")].
Proof. cbv zeta. repeat split; vm_compute; reflexivity. Qed.

(** C5 (as amended).  With a client, when a call whose error the operation
    checks fails with [e], the operation sends nothing more, neither a retry
    nor a compensating write, and does the following and nothing else:
    - [fetchTools] and [fetchToolsInUse] log [e];
    - [fetchMovements] logs [e], empties the movements and sets loading to
      false;
    - [addTool], [updateTool] and [deleteTool] return [e];
    - [createCheckout], whose insert fails, returns [e];
    - [createCheckin], whose insert fails, returns [e]; the update that
      marked the original movement returned has been sent and stays.
    Once the insert of [createCheckout] or [createCheckin] has succeeded,
    the only requests that follow are the read and the update of the stock
    and the fetch of the movements: nothing undoes the inserted movement. *)
Theorem failures_logged_or_returned {B AuthData : Type}
    (c : Client B AuthData) (clock : nat -> string) (tool updates : row)
    (id toolId toolName userName area movementId : string)
    (quantity returnQuantity : Z) (notes : option string)
    (w : World B) (e : Err) :
  let failing (q : Query) := error (fst (exec_many c q (remote w))) = Some e in
  let failing1 (q : Query) := error (fst (exec_single c q (remote w))) = Some e in
  let then_many (q : Query) := sent (RQuery q) (snd (exec_many c q (remote w))) in
  let then_single (q : Query) :=
    sent (RQuery q) (snd (exec_single c q (remote w))) in
  (* the fetch functions *)
  (failing useTools.tools_query ->
   useTools.fetchTools B AuthData (Some c) w =
     (Returned tt,
      logged (LogError "Error fetching tools:" e)
             (then_many useTools.tools_query w))) /\
  (failing useTools.active_movements_query ->
   useTools.fetchToolsInUse B AuthData (Some c) w =
     (Returned tt,
      logged (LogError "Error fetching tools in use:" e)
             (then_many useTools.active_movements_query w))) /\
  (failing useMovements.movements_query ->
   useMovements.fetchMovements B AuthData (Some c) w =
     (Returned tt,
      with_movements_loading false
        (with_movements []
           (logged (LogError "Error fetching movements:" e)
                   (then_many useMovements.movements_query w))))) /\
  (* the writes of useTools *)
  (let q := Builder.single (useTools.addTool_query tool) in
   failing1 q ->
   useTools.addTool B AuthData (Some c) tool w =
     (Returned (mkResp None (Some e)), then_single q w)) /\
  (let q := Builder.single
              (useTools.updateTool_query id updates (clock (ticks w))) in
   failing1 q ->
   useTools.updateTool B AuthData (Some c) clock id updates w =
     (Returned (mkResp None (Some e)), then_single q (ticked w))) /\
  (let q := useTools.deleteTool_query id in
   failing q ->
   useTools.deleteTool B AuthData (Some c) id w =
     (Returned (Some e), then_many q w)) /\
  (* createCheckout *)
  (let op := useMovements.createCheckout B AuthData (Some c) clock
               toolId toolName quantity userName area notes in
   let read := Builder.single (useMovements.stock_query (VStr toolId)) in
   let ins := Builder.single
                (useMovements.insert_movement_query
                   (useMovements.checkout_row toolId toolName quantity
                      userName area notes (clock (ticks w)))) in
   let b0 := snd (exec_single c read (remote w)) in
   forall tool : row,
     data (fst (exec_single c read (remote w))) = Some tool ->
     js_lt (get tool "available_stock") quantity = false ->
     (error (fst (exec_single c ins b0)) = Some e ->
      op w = (Returned (mkResp None (Some e)),
              sent (RQuery ins) (snd (exec_single c ins b0))
                   (ticked (then_single read w)))) /\
     (error (fst (exec_single c ins b0)) = None ->
      exists a, issued op w =
                  [RQuery read; RQuery ins;
                   RQuery (useMovements.stock_update_query (VStr toolId) a);
                   RQuery useMovements.movements_query])) /\
  (* createCheckin *)
  (let op := useMovements.createCheckin B AuthData (Some c) clock
               movementId returnQuantity userName notes in
   let read := Builder.single (useMovements.movement_query movementId) in
   let mark := useMovements.mark_returned_query movementId (clock (ticks w)) in
   let b0 := snd (exec_single c read (remote w)) in
   let b1 := snd (exec_many c mark b0) in
   forall movement : row,
     data (fst (exec_single c read (remote w))) = Some movement ->
     let ins := Builder.single
                  (useMovements.insert_movement_query
                     (useMovements.checkin_row movement returnQuantity
                        userName notes (clock (S (ticks w))))) in
     (error (fst (exec_single c ins b1)) = Some e ->
      op w = (Returned (mkResp None (Some e)),
              sent (RQuery ins) (snd (exec_single c ins b1))
                   (ticked (sent (RQuery mark) b1
                              (ticked (then_single read w)))))) /\
     (error (fst (exec_single c ins b1)) = None ->
      let readStock :=
        Builder.single (useMovements.stock_query (get movement "tool_id")) in
      issued op w = [RQuery read; RQuery mark; RQuery ins; RQuery readStock;
                     RQuery useMovements.movements_query] \/
      exists a, issued op w =
                  [RQuery read; RQuery mark; RQuery ins; RQuery readStock;
                   RQuery (useMovements.stock_update_query
                             (get movement "tool_id") a);
                   RQuery useMovements.movements_query])).
Proof.
  cbv zeta.
  split. { rewrite fetchTools_run.
           destruct (exec_many c _ (remote w)) as [[d e'] b]. cbn [fst snd error].
           by intros ->. }
  split. { rewrite fetchToolsInUse_run.
           destruct (exec_many c _ (remote w)) as [[d e'] b]. cbn [fst snd error].
           by intros ->. }
  split. { rewrite fetchMovements_run.
           destruct (exec_many c _ (remote w)) as [[d e'] b]. cbn [fst snd error].
           by intros ->. }
  split. { rewrite addTool_run. cbv zeta.
           destruct (exec_single c _ (remote w)) as [[d e'] b]. cbn [fst snd error].
           by intros ->. }
  split. { rewrite updateTool_run. cbv zeta.
           destruct (exec_single c _ (remote w)) as [[d e'] b]. cbn [fst snd error].
           by intros ->. }
  split. { rewrite deleteTool_run. cbv zeta.
           destruct (exec_many c _ (remote w)) as [[d e'] b]. cbn [fst snd error].
           by intros ->. }
  split.
  - intros tool0. unfold outcome, issued. rewrite createCheckout_run. cbv zeta.
    destruct (exec_single c _ (remote w)) as [[dt et] b0]. cbn [data fst snd].
    intros -> ->.
    destruct (exec_single c _ b0) as [[d e'] b1]. cbn [error fst snd].
    split; [by intros ->|]. intros ->.
    destruct (exec_many c _ b1) as [r2 b2]. cbn [fst snd].
    eexists.
    rewrite fetchMovements_trace. cbn. rewrite <- !app_assoc.
    by rewrite drop_app_length.
  - intros movement. unfold outcome, issued. rewrite createCheckin_run.
    cbv zeta.
    destruct (exec_single c _ (remote w)) as [[dm em] b0]. cbn [data fst snd].
    intros ->.
    destruct (exec_many c _ b0) as [r1 b1]. cbn [fst snd].
    destruct (exec_single c _ b1) as [[d e'] b2]. cbn [error fst snd].
    split; [by intros ->|]. intros ->.
    destruct (exec_single c _ b2) as [[[tool0|] et] b3]; cbn [data].
    + destruct (exec_many c _ b3) as [r4 b4]. cbn [fst snd].
      right. eexists.
      rewrite fetchMovements_trace. cbn. rewrite <- !app_assoc.
      by rewrite drop_app_length.
    + cbn [fst snd]. left.
      rewrite fetchMovements_trace. cbn. rewrite <- !app_assoc.
      by rewrite drop_app_length.
Qed.

Lemma failures_logged_or_returned_witness :
  let denied := RemoteError "permission denied" in
  let fetchMovements :=
    useMovements.fetchMovements MemDB.DB string (Some MemDB.client) in
  let createCheckin :=
    useMovements.createCheckin MemDB.DB string (Some MemDB.client) MemDB.clock
      "m1" 2 "ana" None in
  let w1 := with_movements [Examples.lent]
              (MemDB.fresh_world Examples.db_no_select) in
  let w2 := MemDB.fresh_world Examples.db_lent_no_insert in
  (console (after fetchMovements w1) =
     [LogError "Error fetching movements:" denied] /\
   movements (after fetchMovements w1) = [] /\
   issued fetchMovements w1 = [RQuery useMovements.movements_query]) /\
  (outcome createCheckin w2 = Returned (mkResp None (Some denied)) /\
   length (issued createCheckin w2) = 3%nat /\
   map (fun r => (get r "id", get r "status"))
       (MemDB.table_rows (remote (after createCheckin w2)) "movements")
     = [(VStr "m0", VStr "returned"); (VStr "m1", VStr "returned")]).
Proof.
  cbv zeta. split.
  - destruct (failures_logged_or_returned MemDB.client MemDB.clock
                Examples.hammer Examples.hammer "t1" "t1" "Hammer" "ana"
                "shop" "m1" 2 2 None
                (with_movements [Examples.lent]
                   (MemDB.fresh_world Examples.db_no_select))
                (RemoteError "permission denied"))
      as (_ & _ & Hfetch & _).
    unfold after, issued. rewrite Hfetch by (vm_compute; reflexivity).
    repeat split.
  - destruct (failures_logged_or_returned MemDB.client MemDB.clock
                Examples.hammer Examples.hammer "t1" "t1" "Hammer" "ana"
                "shop" "m1" 2 2 None
                (MemDB.fresh_world Examples.db_lent_no_insert)
                (RemoteError "permission denied"))
      as (_ & _ & _ & _ & _ & _ & _ & Hcheckin).
    destruct (Hcheckin Examples.lent) as [Hfail _];
      [vm_compute; reflexivity|].
    unfold outcome, after, issued.
    rewrite Hfail by (vm_compute; reflexivity).
    repeat split; vm_compute; reflexivity.
Defined.

(** ** Passthroughs, and the two operations that compute *)


Section Passthroughs.
Context {B AuthData : Type}.
Variable supabase : option (Client B AuthData).
Variable clock : nat -> string.

Lemma issued_nil {A} (op : M B A) (w : World B) :
  trace (after op w) = trace w -> issued op w = [].
Proof. intros H. apply issued_of_trace. by rewrite app_nil_r. Qed.









End Passthroughs.




(** * Further properties of the hooks *)

(** ** Nothing thrown, and results that carry data or an error *)

Section NeverThrows.
Context {B AuthData : Type}.
Variable supabase : option (Client B AuthData).
Variable clock : nat -> string.










End NeverThrows.



(** ** Each hook keeps to its own state *)

Section Frames.
Context {B AuthData : Type}.
Variable clock : nat -> string.

Lemma fetchTools_frame (supabase : option (Client B AuthData)) (w : World B) :
  let w' := after (useTools.fetchTools B AuthData supabase) w in
  movements_state w' = movements_state w /\ subs w' = subs w /\
  toolsInUse w' = toolsInUse w /\ tools_loading w' = tools_loading w.
Proof.
  cbv zeta. unfold after. destruct supabase as [c|]; [|by cbn].
  rewrite fetchTools_run.
  by destruct (exec_many c _ (remote w)) as [[d [e|]] b].
Qed.

Lemma fetchToolsInUse_frame (supabase : option (Client B AuthData))
    (w : World B) :
  let w' := after (useTools.fetchToolsInUse B AuthData supabase) w in
  movements_state w' = movements_state w /\ subs w' = subs w /\
  tools w' = tools w /\ tools_loading w' = tools_loading w.
Proof.
  cbv zeta. unfold after. destruct supabase as [c|]; [|by cbn].
  rewrite fetchToolsInUse_run.
  by destruct (exec_many c _ (remote w)) as [[d [e|]] b].
Qed.

Lemma fetchMovements_frame (supabase : option (Client B AuthData))
    (w : World B) :
  let w' := after (useMovements.fetchMovements B AuthData supabase) w in
  tools_state w' = tools_state w /\ subs w' = subs w /\
  movements_loading w' = false.
Proof.
  cbv zeta. unfold after. destruct supabase as [c|]; [|by cbn].
  rewrite fetchMovements_run.
  by destruct (exec_many c _ (remote w)) as [[d [e|]] b].
Qed.

Lemma addTool_frame (supabase : option (Client B AuthData)) (tool : row)
    (w : World B) :
  let w' := after (useTools.addTool B AuthData supabase tool) w in
  movements_state w' = movements_state w /\ subs w' = subs w /\
  toolsInUse w' = toolsInUse w /\ tools_loading w' = tools_loading w.
Proof.
  cbv zeta. unfold after. destruct supabase as [c|]; [|by cbn].
  rewrite addTool_run. cbv zeta.
  destruct (exec_single c _ (remote w)) as [[d [e|]] b]; cbn [error snd];
    [done|].
  destruct (fetchTools_frame (Some c)
              (sent (RQuery (Builder.single (useTools.addTool_query tool))) b w))
    as (H1 & H2 & H3 & H4).
  by rewrite H1, H2, H3, H4.
Qed.

Lemma updateTool_frame (supabase : option (Client B AuthData)) (id : string)
    (updates : row) (w : World B) :
  let w' := after (useTools.updateTool B AuthData supabase clock id updates) w in
  movements_state w' = movements_state w /\ subs w' = subs w /\
  toolsInUse w' = toolsInUse w /\ tools_loading w' = tools_loading w.
Proof.
  cbv zeta. unfold after. destruct supabase as [c|]; [|by cbn].
  rewrite updateTool_run. cbv zeta.
  destruct (exec_single c _ (remote w)) as [[d [e|]] b]; cbn [error snd];
    [done|].
  destruct (fetchTools_frame (Some c)
              (sent (RQuery (Builder.single
                       (useTools.updateTool_query id updates (clock (ticks w)))))
                    b (ticked w)))
    as (H1 & H2 & H3 & H4).
  by rewrite H1, H2, H3, H4.
Qed.

Lemma deleteTool_frame (supabase : option (Client B AuthData)) (id : string)
    (w : World B) :
  let w' := after (useTools.deleteTool B AuthData supabase id) w in
  movements_state w' = movements_state w /\ subs w' = subs w /\
  toolsInUse w' = toolsInUse w /\ tools_loading w' = tools_loading w.
Proof.
  cbv zeta. unfold after. destruct supabase as [c|]; [|by cbn].
  rewrite deleteTool_run. cbv zeta.
  destruct (exec_many c _ (remote w)) as [[d [e|]] b]; cbn [error snd];
    [done|].
  destruct (fetchTools_frame (Some c)
              (sent (RQuery (useTools.deleteTool_query id)) b w))
    as (H1 & H2 & H3 & H4).
  by rewrite H1, H2, H3, H4.
Qed.

Lemma createCheckout_frame (supabase : option (Client B AuthData))
    (toolId toolName : string) (quantity : Z) (userName area : string)
    (notes : option string) (w : World B) :
  let w' := after (useMovements.createCheckout B AuthData supabase clock
                     toolId toolName quantity userName area notes) w in
  tools_state w' = tools_state w /\ subs w' = subs w.
Proof.
  cbv zeta. unfold after. destruct supabase as [c|]; [|by cbn].
  rewrite createCheckout_run. cbv zeta.
  destruct (exec_single c _ (remote w)) as [[[tool|] et] b0]; cbn [data];
    [|done].
  destruct (js_lt _ _); [done|].
  destruct (exec_single c _ b0) as [[d [e|]] b1]; cbn [error]; [done|].
  destruct (exec_many c _ b1) as [r2 b2]. cbn [snd].
  match goal with
  | |- context [after _ ?w0] =>
      destruct (fetchMovements_frame (Some c) w0) as (H1 & H2 & _)
  end.
  by rewrite H1, H2.
Qed.

Lemma createCheckin_frame (supabase : option (Client B AuthData))
    (movementId : string) (returnQuantity : Z) (userName : string)
    (notes : option string) (w : World B) :
  let w' := after (useMovements.createCheckin B AuthData supabase clock
                     movementId returnQuantity userName notes) w in
  tools_state w' = tools_state w /\ subs w' = subs w.
Proof.
  cbv zeta. unfold after. destruct supabase as [c|]; [|by cbn].
  rewrite createCheckin_run. cbv zeta.
  destruct (exec_single c _ (remote w)) as [[[movement|] em] b0]; cbn [data];
    [|done].
  destruct (exec_many c _ b0) as [r1 b1].
  destruct (exec_single c _ b1) as [[d [e|]] b2]; cbn [error]; [done|].
  destruct (exec_single c _ b2) as [[[tool|] et] b3]; cbn [data].
  - destruct (exec_many c _ b3) as [r4 b4]. cbn [snd].
    match goal with
    | |- context [after _ ?w0] =>
        destruct (fetchMovements_frame (Some c) w0) as (H1 & H2 & _)
    end.
    by rewrite H1, H2.
  - cbn [snd].
    match goal with
    | |- context [after _ ?w0] =>
        destruct (fetchMovements_frame (Some c) w0) as (H1 & H2 & _)
    end.
    by rewrite H1, H2.
Qed.

End Frames.

Ltac frame L :=
  let H := fresh "H" in
  pose proof L as H; cbv zeta in H; tauto.

(** X3.  Whether the client is configured or not and whatever the backend
    answers, the operations of one hook leave the React state of the other
    as it is: [fetchMovements], [createCheckout] and [createCheckin] change
    neither [tools] nor [toolsInUse] nor the loading flag of useTools, so
    that after a check-out or a check-in the tools held by useTools are
    those fetched before; the fetches and writes of useTools change neither
    [movements] nor the loading flag of useMovements.  None of them
    subscribes or unsubscribes. *)
Theorem hooks_keep_to_their_state {B AuthData : Type}
    (supabase : option (Client B AuthData)) (clock : nat -> string)
    (tool updates : row) (id toolId toolName userName area movementId : string)
    (quantity returnQuantity : Z) (notes : option string) (w : World B) :
  let untouched_tools {A} (op : M B A) :=
    tools_state (after op w) = tools_state w /\ subs (after op w) = subs w in
  let untouched_movements {A} (op : M B A) :=
    movements_state (after op w) = movements_state w /\
    subs (after op w) = subs w in
  (untouched_tools (useMovements.fetchMovements B AuthData supabase) /\
   untouched_tools (useMovements.createCheckout B AuthData supabase clock
                      toolId toolName quantity userName area notes) /\
   untouched_tools (useMovements.createCheckin B AuthData supabase clock
                      movementId returnQuantity userName notes)) /\
  (untouched_movements (useTools.fetchTools B AuthData supabase) /\
   untouched_movements (useTools.fetchToolsInUse B AuthData supabase) /\
   untouched_movements (useTools.addTool B AuthData supabase tool) /\
   untouched_movements (useTools.updateTool B AuthData supabase clock
                          id updates) /\
   untouched_movements (useTools.deleteTool B AuthData supabase id)).
Proof.
  cbv zeta. split.
  - split; [frame (fetchMovements_frame supabase w)|].
    split.
    + frame (createCheckout_frame clock supabase toolId toolName quantity
               userName area notes w).
    + frame (createCheckin_frame clock supabase movementId returnQuantity
               userName notes w).
  - split; [frame (fetchTools_frame supabase w)|].
    split; [frame (fetchToolsInUse_frame supabase w)|].
    split; [frame (addTool_frame supabase tool w)|].
    split; [frame (updateTool_frame clock supabase id updates w)|].
    frame (deleteTool_frame supabase id w).
Qed.


(** ** What the requests can reach *)

Lemma stock_update_keeps_history (toolId a : val) :
  keeps_history (RQuery (useMovements.stock_update_query toolId a)) /\
  filtered_by_id (RQuery (useMovements.stock_update_query toolId a)).
Proof.
  split; cbn.
  - right. split; [done|]. apply dom_singleton_L.
  - by eexists.
Qed.

Lemma mark_returned_keeps_history (movementId t : string) :
  keeps_history (RQuery (useMovements.mark_returned_query movementId t)) /\
  filtered_by_id (RQuery (useMovements.mark_returned_query movementId t)).
Proof.
  split; cbn.
  - left. split; [done|]. split; [|done].
    rewrite !dom_insert_L, dom_empty_L. set_solver.
  - by eexists.
Qed.

Section Reach.
Context {B AuthData : Type}.
Variable clock : nat -> string.

Lemma fetchMovements_issued (supabase : option (Client B AuthData))
    (w : World B) :
  issued (useMovements.fetchMovements B AuthData supabase) w =
    match supabase with
    | Some _ => [RQuery useMovements.movements_query]
    | None => []
    end.
Proof.
  destruct supabase as [c|].
  - apply issued_of_trace, fetchMovements_trace.
  - by apply issued_nil.
Qed.

Lemma createCheckout_reach (supabase : option (Client B AuthData))
    (toolId toolName : string) (quantity : Z) (userName area : string)
    (notes : option string) :
  all_requests (fun r => keeps_history r /\ filtered_by_id r)
    (useMovements.createCheckout B AuthData supabase clock
       toolId toolName quantity userName area notes).
Proof.
  intros w. unfold issued. destruct supabase as [c|].
  2: { cbn. rewrite drop_all. constructor. }
  rewrite createCheckout_run. cbv zeta.
  pose proof (stock_update_keeps_history (VStr toolId)) as Hupd.
  destruct (exec_single c _ (remote w)) as [[[tool|] et] b0]; cbn [data].
  2: { cbn. rewrite drop_app_length. by repeat constructor. }
  destruct (js_lt _ _).
  { cbn. rewrite drop_app_length. by repeat constructor. }
  destruct (exec_single c _ b0) as [[d [e|]] b1]; cbn [error].
  { cbn. rewrite <- !app_assoc, drop_app_length. by repeat constructor. }
  destruct (exec_many c _ b1) as [r2 b2]. cbn [snd].
  rewrite fetchMovements_trace. cbn. rewrite <- !app_assoc, drop_app_length.
  repeat constructor; try done; apply Hupd.
Qed.

Lemma createCheckin_reach (supabase : option (Client B AuthData))
    (movementId : string) (returnQuantity : Z) (userName : string)
    (notes : option string) :
  all_requests (fun r => keeps_history r /\ filtered_by_id r)
    (useMovements.createCheckin B AuthData supabase clock
       movementId returnQuantity userName notes).
Proof.
  intros w. unfold issued. destruct supabase as [c|].
  2: { cbn. rewrite drop_all. constructor. }
  rewrite createCheckin_run. cbv zeta.
  pose proof (mark_returned_keeps_history movementId (clock (ticks w)))
    as Hmark.
  destruct (exec_single c _ (remote w)) as [[[movement|] em] b0]; cbn [data].
  2: { cbn. rewrite drop_app_length. by repeat constructor. }
  pose proof (stock_update_keeps_history (get movement "tool_id")) as Hupd.
  destruct (exec_many c _ b0) as [r1 b1].
  destruct (exec_single c _ b1) as [[d [e|]] b2]; cbn [error].
  { cbn. rewrite <- !app_assoc, drop_app_length.
    repeat constructor; try done; apply Hmark. }
  destruct (exec_single c _ b2) as [[[tool|] et] b3]; cbn [data].
  - destruct (exec_many c _ b3) as [r4 b4]. cbn [snd].
    rewrite fetchMovements_trace. cbn. rewrite <- !app_assoc, drop_app_length.
    repeat constructor; try done; try apply Hmark; apply Hupd.
  - cbn [snd].
    rewrite fetchMovements_trace. cbn. rewrite <- !app_assoc, drop_app_length.
    repeat constructor; try done; apply Hmark.
Qed.

Lemma useTools_write_reach (supabase : option (Client B AuthData))
    (tool updates : row) (id : string) :
  let ok r := writes_tools_only r /\ filtered_by_id r in
  all_requests ok (useTools.fetchTools B AuthData supabase) /\
  all_requests ok (useTools.fetchToolsInUse B AuthData supabase) /\
  all_requests ok (useTools.addTool B AuthData supabase tool) /\
  all_requests ok (useTools.updateTool B AuthData supabase clock id updates) /\
  all_requests ok (useTools.deleteTool B AuthData supabase id).
Proof.
  cbv zeta. unfold all_requests.
  destruct supabase as [c|].
  2: { repeat split; intros w; unfold issued; cbn; rewrite drop_all;
         constructor. }
  split.
  { intros w. rewrite (issued_of_trace _ _ _ (fetchTools_trace c w)).
    by repeat constructor. }
  split.
  { intros w. rewrite (issued_of_trace _ _ _ (fetchToolsInUse_trace c w)).
    by repeat constructor. }
  split.
  { intros w. unfold issued. rewrite addTool_run. cbv zeta.
    destruct (exec_single c _ (remote w)) as [[d [e|]] b]; cbn [error snd].
    - cbn. rewrite drop_app_length. by repeat constructor.
    - rewrite fetchTools_trace. cbn. rewrite <- !app_assoc, drop_app_length.
      by repeat constructor. }
  split.
  { intros w. unfold issued. rewrite updateTool_run. cbv zeta.
    destruct (exec_single c _ (remote w)) as [[d [e|]] b]; cbn [error snd].
    - cbn. rewrite drop_app_length. repeat constructor; cbn; eauto.
    - rewrite fetchTools_trace. cbn. rewrite <- !app_assoc, drop_app_length.
      repeat constructor; cbn; eauto. }
  intros w. unfold issued. rewrite deleteTool_run. cbv zeta.
  destruct (exec_many c _ (remote w)) as [[d [e|]] b]; cbn [error snd].
  - cbn. rewrite drop_app_length. repeat constructor; cbn; eauto.
  - rewrite fetchTools_trace. cbn. rewrite <- !app_assoc, drop_app_length.
    repeat constructor; cbn; eauto.
Qed.

End Reach.

(** X5.  Whether the client is configured or not and whatever the backend
    answers, every update and every delete a hook sends is filtered by
    [id] and by nothing else, so that it reaches the rows with one id only.
    The requests of useMovements ([fetchMovements], [createCheckout],
    [createCheckin]) keep the history of movements: none deletes anything,
    inserts go into [movements], an update of [movements] sets [status] to
    'returned' and [checkin_date] and no other column, and an update of
    [tools] sets [available_stock] and no other column.  The requests of
    useTools write to [tools] only. *)
Theorem requests_stay_in_reach {B AuthData : Type}
    (supabase : option (Client B AuthData)) (clock : nat -> string)
    (tool updates : row) (id toolId toolName userName area movementId : string)
    (quantity returnQuantity : Z) (notes : option string) :
  let kept r := keeps_history r /\ filtered_by_id r in
  let tools_only r := writes_tools_only r /\ filtered_by_id r in
  (all_requests kept (useMovements.fetchMovements B AuthData supabase) /\
   all_requests kept
     (useMovements.createCheckout B AuthData supabase clock
        toolId toolName quantity userName area notes) /\
   all_requests kept
     (useMovements.createCheckin B AuthData supabase clock
        movementId returnQuantity userName notes)) /\
  (all_requests tools_only (useTools.fetchTools B AuthData supabase) /\
   all_requests tools_only (useTools.fetchToolsInUse B AuthData supabase) /\
   all_requests tools_only (useTools.addTool B AuthData supabase tool) /\
   all_requests tools_only
     (useTools.updateTool B AuthData supabase clock id updates) /\
   all_requests tools_only (useTools.deleteTool B AuthData supabase id)).
Proof.
  cbv zeta. split.
  - split.
    { intros w. rewrite fetchMovements_issued.
      destruct supabase; by repeat constructor. }
    split; [apply createCheckout_reach | apply createCheckin_reach].
  - apply (useTools_write_reach clock supabase tool updates id).
Qed.

(** ** updateTool: what is written, and where *)

(** X6.  With a client, the first request of [updateTool] is an update of
    [tools] filtered by the given [id] alone.  Its payload is the caller's
    [updates] with [updated_at] set to the time of the call: an [updated_at]
    passed by the caller is overwritten, every other property, [id]
    included, goes through as given, and empty [updates] still write
    [updated_at].  The clock is read once, and the only other request, if
    any, is the re-fetch of the tools. *)
Theorem updateTool_stamps_and_targets {B AuthData : Type}
    (c : Client B AuthData) (clock : nat -> string) (id : string)
    (updates : row) (w : World B) :
  let op := useTools.updateTool B AuthData (Some c) clock id updates in
  exists (payload : row) (rest : list Request),
    issued op w =
      RQuery (mkQuery "tools" (Update payload) [("id", VStr id)] None
                      true true) :: rest /\
    (rest = [] \/ rest = [RQuery useTools.tools_query]) /\
    payload !! "updated_at" = Some (VStr (clock (ticks w))) /\
    (forall k : string, k <> "updated_at" -> payload !! k = updates !! k) /\
    (updates = ∅ -> payload = {[ "updated_at" := VStr (clock (ticks w)) ]}) /\
    ticks (after op w) = S (ticks w).
Proof.
  cbv zeta. exists (<["updated_at" := VStr (clock (ticks w))]> updates).
  unfold issued, after. rewrite updateTool_run. cbv zeta.
  assert (Hticks : ticks (after (useTools.fetchTools B AuthData (Some c))
                            (sent (RQuery (Builder.single
                               (useTools.updateTool_query id updates
                                  (clock (ticks w)))))
                               (snd (exec_single c (Builder.single
                                  (useTools.updateTool_query id updates
                                     (clock (ticks w)))) (remote w)))
                               (ticked w))) = S (ticks w)).
  { unfold after. rewrite fetchTools_run.
    by destruct (exec_many c _ _) as [[d [e|]] b]. }
  destruct (exec_single c _ (remote w)) as [[d [e|]] b]; cbn [error snd fst] in *.
  - exists []. cbn. rewrite drop_app_length.
    split; [done|]. split; [by left|]. split; [by rewrite lookup_insert_eq|].
    split; [by intros k Hk; rewrite lookup_insert_ne|].
    split; [by intros ->|done].
  - exists [RQuery useTools.tools_query].
    rewrite fetchTools_trace. cbn. rewrite <- !app_assoc, drop_app_length.
    split; [done|]. split; [by right|]. split; [by rewrite lookup_insert_eq|].
    split; [by intros k Hk; rewrite lookup_insert_ne|].
    split; [by intros ->|exact Hticks].
Qed.

(** ** createCheckout: the bounds of the guard *)

Section CheckoutBounds.
Context {B AuthData : Type}.
Variable c : Client B AuthData.
Variable clock : nat -> string.

(** What [createCheckout] sends once the guard has accepted. *)
Lemma createCheckout_accepted (toolId toolName : string) (quantity : Z)
    (userName area : string) (notes : option string) (w : World B)
    (stock : row) :
  let op := useMovements.createCheckout B AuthData (Some c) clock
              toolId toolName quantity userName area notes in
  let read := Builder.single (useMovements.stock_query (VStr toolId)) in
  let ins := Builder.single
               (useMovements.insert_movement_query
                  (useMovements.checkout_row toolId toolName quantity
                     userName area notes (clock (ticks w)))) in
  data (fst (exec_single c read (remote w))) = Some stock ->
  js_lt (get stock "available_stock") quantity = false ->
  issued op w !! 1%nat = Some (RQuery ins) /\
  (error (fst (exec_single c ins (snd (exec_single c read (remote w))))) = None ->
   issued op w !! 2%nat =
     Some (RQuery (useMovements.stock_update_query (VStr toolId)
                     (js_sub (get stock "available_stock") quantity)))).
Proof.
  cbv zeta. unfold issued. rewrite createCheckout_run. cbv zeta.
  destruct (exec_single c _ (remote w)) as [[ds es] b0]. cbn [data fst snd].
  intros -> ->.
  destruct (exec_single c _ b0) as [[d [e|]] b1]; cbn [error fst snd].
  - split; [|discriminate]. cbn. rewrite <- !app_assoc.
    by rewrite drop_app_length.
  - destruct (exec_many c _ b1) as [r2 b2]. cbn [snd].
    rewrite fetchMovements_trace. cbn. rewrite <- !app_assoc.
    by rewrite drop_app_length.
Qed.

(** What [createCheckout] does once the guard has rejected. *)
Lemma createCheckout_rejected (toolId toolName : string) (quantity : Z)
    (userName area : string) (notes : option string) (w : World B)
    (stock : row) :
  let op := useMovements.createCheckout B AuthData (Some c) clock
              toolId toolName quantity userName area notes in
  let read := Builder.single (useMovements.stock_query (VStr toolId)) in
  data (fst (exec_single c read (remote w))) = Some stock ->
  js_lt (get stock "available_stock") quantity = true ->
  outcome op w = Returned (mkResp None (Some (JsError "Stock insuficiente"))) /\
  issued op w = [RQuery read].
Proof.
  cbv zeta. unfold outcome, issued. rewrite createCheckout_run. cbv zeta.
  destruct (exec_single c _ (remote w)) as [[ds es] b0]. cbn [data fst snd].
  intros -> ->. split; [done|]. cbn. by rewrite drop_app_length.
Qed.

End CheckoutBounds.



(** X8.  With a client, a stock row without a number.  When the row read
    has no [available_stock], the comparison of the guard is false for
    every quantity: the check-out is accepted whatever is asked, and after
    a successful insert the stock written is not a number.  When its
    [available_stock] is null, it counts as 0: the check-out is rejected
    for every positive quantity. *)
Theorem checkout_without_stock_number {B AuthData : Type}
    (c : Client B AuthData) (clock : nat -> string)
    (toolId toolName : string) (quantity : Z) (userName area : string)
    (notes : option string) (w : World B) (stock : row) :
  let op := useMovements.createCheckout B AuthData (Some c) clock
              toolId toolName quantity userName area notes in
  let read := Builder.single (useMovements.stock_query (VStr toolId)) in
  let ins := Builder.single
               (useMovements.insert_movement_query
                  (useMovements.checkout_row toolId toolName quantity
                     userName area notes (clock (ticks w)))) in
  data (fst (exec_single c read (remote w))) = Some stock ->
  (get stock "available_stock" = VUndef ->
   issued op w !! 1%nat = Some (RQuery ins) /\
   (error (fst (exec_single c ins (snd (exec_single c read (remote w))))) = None ->
    issued op w !! 2%nat =
      Some (RQuery (useMovements.stock_update_query (VStr toolId) VNaN)))) /\
  (get stock "available_stock" = VNull -> 0 < quantity ->
   outcome op w = Returned (mkResp None (Some (JsError "Stock insuficiente"))) /\
   issued op w = [RQuery read]).
Proof.
  cbv zeta. intros Hread. split.
  - intros Hundef.
    destruct (createCheckout_accepted c clock toolId toolName quantity userName
                area notes w stock Hread) as [Hins Hupd].
    { by rewrite Hundef. }
    rewrite Hundef in Hupd. by split.
  - intros Hnull Hpos.
    apply (createCheckout_rejected c clock toolId toolName quantity userName
             area notes w stock Hread).
    rewrite Hnull. cbn. by apply Z.ltb_lt.
Qed.

Lemma checkout_without_stock_number_witness :
  issued (useMovements.createCheckout MemDB.DB string (Some MemDB.client)
            MemDB.clock "t2" "Saw" 1000 "ana" "shop" None)
         (MemDB.fresh_world EdgeExamples.db_odd) !! 2%nat =
    Some (RQuery (useMovements.stock_update_query (VStr "t2") VNaN)) /\
  outcome (useMovements.createCheckout MemDB.DB string (Some MemDB.client)
             MemDB.clock "t3" "File" 1 "ana" "shop" None)
          (MemDB.fresh_world EdgeExamples.db_odd) =
    Returned (mkResp None (Some (JsError "Stock insuficiente"))).
Proof.
  split.
  - destruct (checkout_without_stock_number MemDB.client MemDB.clock
                "t2" "Saw" 1000 "ana" "shop" None
                (MemDB.fresh_world EdgeExamples.db_odd)
                {[ "available_stock" := VUndef ]}) as [Hundef _].
    { vm_compute. reflexivity. }
    destruct Hundef as [_ Hupd]; [vm_compute; reflexivity|].
    apply Hupd. vm_compute. reflexivity.
  - destruct (checkout_without_stock_number MemDB.client MemDB.clock
                "t3" "File" 1 "ana" "shop" None
                (MemDB.fresh_world EdgeExamples.db_odd)
                {[ "available_stock" := VNull ]}) as [_ Hnull].
    { vm_compute. reflexivity. }
    apply Hnull; [vm_compute; reflexivity | lia].
Defined.

(** ** A check-out and its check-in *)



(** ** Both hooks mounted *)



(** ** Without a client *)



(** ** The client and its credentials *)



(** ** How many requests an operation sends *)

(** X13.  Whatever the backend answers, no operation sends a request
    twice or loops: a fetch function and an auth call send at most one
    request, a write of useTools at most two (the write and the re-fetch),
    [createCheckout] at most four and [createCheckin] at most six; without
    a client none of them sends anything. *)
Theorem request_budget {B AuthData : Type}
    (supabase : option (Client B AuthData)) (clock : nat -> string)
    (tool updates : row)
    (id email password toolId toolName userName area movementId : string)
    (quantity returnQuantity : Z) (notes : option string) (w : World B) :
  let sends {A} (op : M B A) := length (issued op w) in
  let at_most {A} (n : nat) (op : M B A) :=
    (sends op <= n)%nat /\ (supabase = None -> sends op = 0%nat) in
  at_most 1%nat (useTools.fetchTools B AuthData supabase) /\
  at_most 1%nat (useTools.fetchToolsInUse B AuthData supabase) /\
  at_most 1%nat (useMovements.fetchMovements B AuthData supabase) /\
  at_most 1%nat (supabase_lib.signIn B AuthData supabase email password) /\
  at_most 1%nat (supabase_lib.signOut B AuthData supabase) /\
  at_most 2%nat (useTools.addTool B AuthData supabase tool) /\
  at_most 2%nat (useTools.updateTool B AuthData supabase clock id updates) /\
  at_most 2%nat (useTools.deleteTool B AuthData supabase id) /\
  at_most 4%nat (useMovements.createCheckout B AuthData supabase clock
               toolId toolName quantity userName area notes) /\
  at_most 6%nat (useMovements.createCheckin B AuthData supabase clock
               movementId returnQuantity userName notes).
Proof.
  cbv zeta. destruct supabase as [c|].
  2: { repeat split; try (intros _);
         match goal with
         | |- context [issued ?op w] =>
             rewrite (issued_nil op w) by reflexivity
         end; cbn; lia. }
  assert (Hsome : forall n (l : list Request),
            (length l <= n)%nat ->
            (length l <= n)%nat /\ (Some c = None -> length l = 0%nat))
    by (intros n l H; split; [exact H | discriminate]).
  split. { apply Hsome.
           rewrite (issued_of_trace _ _ _ (fetchTools_trace c w)). cbn. lia. }
  split. { apply Hsome.
           rewrite (issued_of_trace _ _ _ (fetchToolsInUse_trace c w)).
           cbn. lia. }
  split. { apply Hsome.
           rewrite (issued_of_trace _ _ _ (fetchMovements_trace c w)).
           cbn. lia. }
  split.
  { apply Hsome. unfold issued, supabase_lib.signIn, bind, await_signIn, ret.
    destruct (auth_signInWithPassword c email password (remote w)) as [r b].
    cbn. rewrite drop_app_length. cbn. lia. }
  split.
  { apply Hsome. unfold issued, supabase_lib.signOut, bind, await_signOut, ret.
    destruct (auth_signOut c (remote w)) as [e b].
    cbn. rewrite drop_app_length. cbn. lia. }
  split.
  { apply Hsome. unfold issued. rewrite addTool_run. cbv zeta.
    destruct (exec_single c _ (remote w)) as [[d [e|]] b]; cbn [error snd];
      rewrite ?fetchTools_trace; cbn; rewrite <- ?app_assoc, drop_app_length;
      cbn; lia. }
  split.
  { apply Hsome. unfold issued. rewrite updateTool_run. cbv zeta.
    destruct (exec_single c _ (remote w)) as [[d [e|]] b]; cbn [error snd];
      rewrite ?fetchTools_trace; cbn; rewrite <- ?app_assoc, drop_app_length;
      cbn; lia. }
  split.
  { apply Hsome. unfold issued. rewrite deleteTool_run. cbv zeta.
    destruct (exec_many c _ (remote w)) as [[d [e|]] b]; cbn [error snd];
      rewrite ?fetchTools_trace; cbn; rewrite <- ?app_assoc, drop_app_length;
      cbn; lia. }
  split.
  { apply Hsome. unfold issued. rewrite createCheckout_run. cbv zeta.
    destruct (exec_single c _ (remote w)) as [[[stock|] et] b0]; cbn [data].
    2: { cbn. rewrite drop_app_length. cbn. lia. }
    destruct (js_lt _ _).
    { cbn. rewrite drop_app_length. cbn. lia. }
    destruct (exec_single c _ b0) as [[d [e|]] b1]; cbn [error].
    { cbn. rewrite <- !app_assoc, drop_app_length. cbn. lia. }
    destruct (exec_many c _ b1) as [r2 b2]. cbn [snd].
    rewrite fetchMovements_trace. cbn.
    rewrite <- !app_assoc, drop_app_length. cbn. lia. }
  apply Hsome. unfold issued. rewrite createCheckin_run. cbv zeta.
  destruct (exec_single c _ (remote w)) as [[[movement|] em] b0]; cbn [data].
  2: { cbn. rewrite drop_app_length. cbn. lia. }
  destruct (exec_many c _ b0) as [r1 b1].
  destruct (exec_single c _ b1) as [[d [e|]] b2]; cbn [error].
  { cbn. rewrite <- !app_assoc, drop_app_length. cbn. lia. }
  destruct (exec_single c _ b2) as [[[stock|] et] b3]; cbn [data].
  - destruct (exec_many c _ b3) as [r4 b4]. cbn [snd].
    rewrite fetchMovements_trace. cbn.
    rewrite <- !app_assoc, drop_app_length. cbn. lia.
  - cbn [snd]. rewrite fetchMovements_trace. cbn.
    rewrite <- !app_assoc, drop_app_length. cbn. lia.
Qed.
